(** * nanomix: the deconvolution core

    A shallow embedding of [python/nanomix/models.py] and
    [scripts/nanomix.py]: the reference atlas, the sample, the two
    binomial likelihoods, the four optimisation drivers and the two entry
    points [fit_model] and [deconvolve].  [ReferenceAtlas], [Sample] and
    [eq_constraint], which [models.py] imports from [tools], are taken
    from the script, where they are defined.  Left out: [fit_mmse] (a
    wrapper around the native solver), [fit_nnls_constrained] and [main].

    Numbers.  NumPy and Python floats are modelled as exact rationals
    extended with the three IEEE special values ([inf], [-inf], [nan]);
    the arithmetic operations do not round and do not overflow.  The
    special values follow IEEE 754 as NumPy applies it (a division by
    zero gives [inf] or [nan] and does not raise), and a finite result is
    always stored in lowest terms, so that two finite results are equal
    exactly when they denote the same rational.  Rounding to binary32 and
    binary64 is defined beside the arithmetic ([Binary]): the conversion
    [dtype=np.float32] of the counts rounds, and where a statement would
    hold of exact arithmetic only (a sum that is exactly one, a quotient
    unchanged by every common factor) it is not made, and the rounded
    value is computed instead.

    Libraries.  The SciPy entry points ([binom.logpmf], [dirichlet.rvs],
    [minimize], [nnls]), [math.log] and the pandas/pyranges table
    operations are not code of this repository: they are parameters of
    the sections below, and every property of them a proof relies on is a
    named hypothesis of that proof. *)

From Stdlib Require Import Ascii String QArith Qround ZArith List Bool Lia Lqa.
Import ListNotations.
Local Open Scope Q_scope.

(* ================================================================== *)
(** ** Floats *)
(* ================================================================== *)

Module Float.

Inductive float : Type :=
| NaN
| NInf
| Fin (q : Q)
| PInf.

(** A finite result, in lowest terms. *)
Definition fin (q : Q) : float := Fin (Qred q).

Definition of_Z (z : Z) : float := Fin (inject_Z z).
Definition of_nat (n : nat) : float := of_Z (Z.of_nat n).

Definition zero : float := Fin 0.
Definition one : float := Fin 1.

Definition fopp (x : float) : float :=
  match x with
  | NaN => NaN
  | NInf => PInf
  | PInf => NInf
  | Fin q => fin (- q)
  end.

Definition fadd (x y : float) : float :=
  match x, y with
  | NaN, _ | _, NaN => NaN
  | PInf, NInf | NInf, PInf => NaN
  | PInf, _ | _, PInf => PInf
  | NInf, _ | _, NInf => NInf
  | Fin a, Fin b => fin (a + b)
  end.

Definition fsub (x y : float) : float := fadd x (fopp y).

(** [inf] multiplied by a finite number: the sign decides, zero gives [nan]. *)
Definition scale_inf (inf : float) (a : Q) : float :=
  match a ?= 0 with
  | Eq => NaN
  | Gt => inf
  | Lt => fopp inf
  end.

Definition fmul (x y : float) : float :=
  match x, y with
  | NaN, _ | _, NaN => NaN
  | Fin a, Fin b => fin (a * b)
  | Fin a, PInf | PInf, Fin a => scale_inf PInf a
  | Fin a, NInf | NInf, Fin a => scale_inf NInf a
  | PInf, PInf | NInf, NInf => PInf
  | PInf, NInf | NInf, PInf => NInf
  end.

(** NumPy division: [x/0] is [inf], [-inf] or [nan], never an exception.
    The model has one zero, taken as [+0]. *)
Definition fdiv (x y : float) : float :=
  match x, y with
  | NaN, _ | _, NaN => NaN
  | Fin a, Fin b =>
      if Qeq_bool b 0 then
        match a ?= 0 with Eq => NaN | Gt => PInf | Lt => NInf end
      else fin (a / b)
  | Fin _, (PInf | NInf) => zero
  | PInf, Fin b => match b ?= 0 with Lt => NInf | _ => PInf end
  | NInf, Fin b => match b ?= 0 with Lt => PInf | _ => NInf end
  | (PInf | NInf), (PInf | NInf) => NaN
  end.

(** [x < y]; false as soon as one side is [nan]. *)
Definition fltb (x y : float) : bool :=
  match x, y with
  | NaN, _ | _, NaN => false
  | _, NInf => false
  | NInf, _ => true
  | PInf, _ => false
  | Fin _, PInf => true
  | Fin a, Fin b => match a ?= b with Lt => true | _ => false end
  end.

(** [x <= y]; false as soon as one side is [nan]. *)
Definition fleb (x y : float) : bool :=
  match x, y with
  | NaN, _ | _, NaN => false
  | NInf, _ => true
  | _, PInf => true
  | _, NInf => false
  | PInf, Fin _ => false
  | Fin a, Fin b => Qle_bool a b
  end.

(** [np.maximum] and [np.minimum]: a [nan] on either side propagates. *)
Definition fmax (x y : float) : float :=
  match x, y with
  | NaN, _ | _, NaN => NaN
  | _, _ => if fltb x y then y else x
  end.

Definition fmin (x y : float) : float :=
  match x, y with
  | NaN, _ | _, NaN => NaN
  | _, _ => if fltb y x then y else x
  end.

(** Python truth value of a float: false exactly for zero. *)
Definition truthy (x : float) : bool :=
  match x with
  | Fin q => negb (Qeq_bool q 0)
  | _ => true
  end.

Definition is_nan (x : float) : bool :=
  match x with NaN => true | _ => false end.

(** Finite, and at least zero. *)
Definition nonneg (x : float) : Prop :=
  match x with Fin q => 0 <= q | _ => False end.

(** Finite, and within [[0,1]]. *)
Definition unit_interval (x : float) : Prop :=
  match x with Fin q => 0 <= q <= 1 | _ => False end.

Definition finite (x : float) : Prop :=
  match x with Fin _ => True | _ => False end.

(** A finite value or [-inf]: what a log-probability can be. *)
Definition finite_or_neginf (x : float) : Prop :=
  match x with Fin _ | NInf => True | _ => False end.

End Float.
Export Float.

(** The rounding the arithmetic above leaves out: IEEE 754 binary
    formats, round to nearest, ties to even.  The model applies it where
    the code asks for a format by name ([dtype=np.float32]); the two
    formats also say what a result of the exact model becomes once it is
    stored. *)
Module Binary.

(** [2^z] for any integer [z]. *)
Definition pow2 (z : Z) : Q :=
  if (0 <=? z)%Z then inject_Z (2 ^ z) else 1 # Z.to_pos (2 ^ (- z)).

(** The nearest integer, the even one of two at the same distance. *)
Definition nearest_even (q : Q) : Z :=
  let f := Qfloor q in
  match Qcompare (q - inject_Z f) (1 # 2) with
  | Lt => f
  | Gt => (f + 1)%Z
  | Eq => if Z.even f then f else (f + 1)%Z
  end.

(** The exponent [e] with [2^e <= q < 2^(e+1)], for a positive [q]. *)
Definition ilog2 (q : Q) : Z :=
  let e := (Z.log2 (Qnum q) - Z.log2 (Zpos (Qden q)))%Z in
  if Qle_bool (pow2 e) q then e else (e - 1)%Z.

(** A positive rational rounded to [prec] significant bits, on a grid no
    finer than [2^emin] (the subnormal range). *)
Definition round_pos (prec emin : Z) (q : Q) : Q :=
  let e := Z.max (ilog2 q - (prec - 1)) emin in
  inject_Z (nearest_even (q / pow2 e)) * pow2 e.

(** Rounding into the format of precision [prec] whose smallest positive
    number is [2^emin] and whose finite numbers are below [2^emax]: a
    result that reaches [2^emax] overflows to an infinity. *)
Definition round (prec emin emax : Z) (x : float) : float :=
  match x with
  | Fin q =>
      match q ?= 0 with
      | Eq => zero
      | Gt => let r := round_pos prec emin q in
              if Qle_bool (pow2 emax) r then PInf else fin r
      | Lt => let r := round_pos prec emin (- q) in
              if Qle_bool (pow2 emax) r then NInf else fin (- r)
      end
  | _ => x
  end.

(** binary32 ([np.float32]) and binary64 (a Python float, [np.float64]). *)
Definition float32 (x : float) : float := round 24 (-149) 128 x.

End Binary.
Export Binary.

Declare Scope float_scope.
Delimit Scope float_scope with float.
Infix "+" := fadd : float_scope.
Infix "-" := fsub : float_scope.
Infix "*" := fmul : float_scope.
Infix "/" := fdiv : float_scope.
Infix "<?" := fltb : float_scope.
Infix "<=?" := fleb : float_scope.

(* ================================================================== *)
(** ** Python results and NumPy arrays *)
(* ================================================================== *)

Module Py.

(** The exceptions the two files can end in. *)
Inductive exn : Type :=
| ValueError
| AttributeError
| ZeroDivisionError
| OverflowError
| UnboundLocalError
| KeyError
| IndexError
| EmptyDataError
| FileNotFoundError.

Inductive result (A : Type) : Type :=
| Ok (a : A)
| Err (e : exn).
Arguments Ok {A} a.
Arguments Err {A} e.

Definition bind {A B : Type} (r : result A) (k : A -> result B) : result B :=
  match r with
  | Ok a => k a
  | Err e => Err e
  end.

Definition returns {A : Type} (r : result A) : Prop :=
  match r with Ok _ => True | Err _ => False end.

Definition raises {A : Type} (r : result A) : Prop :=
  match r with Ok _ => False | Err _ => True end.

End Py.
Export Py.

Notation "x <- c ;; k" := (bind c (fun x => k))
  (at level 61, c at next level, right associativity).

Module Np.

(** A one-dimensional array, and a two-dimensional one as its rows. *)
Definition vec : Type := list float.
Definition matrix : Type := list vec.

(** [np.sum] of a one-dimensional array. *)
Definition np_sum (v : vec) : float := fold_left fadd v zero.

Fixpoint zip_with (f : float -> float -> float) (a b : vec) : vec :=
  match a, b with
  | x :: a', y :: b' => f x y :: zip_with f a' b'
  | _, _ => []
  end.

(** NumPy's broadcasting rule for one-dimensional shapes: equal lengths,
    or one side of length one. *)
Definition bshape (n k : nat) : option nat :=
  if Nat.eqb n k then Some n
  else if Nat.eqb n 1 then Some k
  else if Nat.eqb k 1 then Some n
  else None.

Definition expand (v : vec) (n : nat) : vec :=
  if Nat.eqb (length v) n then v else repeat (hd NaN v) n.

(** An elementwise operation on two arrays; shapes that do not broadcast
    are a [ValueError]. *)
Definition broadcast2 (f : float -> float -> float) (a b : vec) : result vec :=
  match bshape (length a) (length b) with
  | Some n => Ok (zip_with f (expand a n) (expand b n))
  | None => Err ValueError
  end.

Fixpoint zip_with3 (f : float -> float -> float -> float) (a b c : vec) : vec :=
  match a, b, c with
  | x :: a', y :: b', z :: c' => f x y z :: zip_with3 f a' b' c'
  | _, _, _ => []
  end.

Definition broadcast3 (f : float -> float -> float -> float) (a b c : vec)
  : result vec :=
  match bshape (length a) (length b) with
  | Some n =>
      match bshape n (length c) with
      | Some k => Ok (zip_with3 f (expand a k) (expand b k) (expand c k))
      | None => Err ValueError
      end
  | None => Err ValueError
  end.

(** [np.clip(v, lo, hi)], that is [minimum(maximum(v, lo), hi)]. *)
Definition np_clip (v : vec) (lo hi : float) : vec :=
  map (fun x => fmin (fmax x lo) hi) v.

Definition dot (r c : vec) : float := np_sum (zip_with fmul r c).

(** An array of shape [(k, 1)], held as its [k] entries. *)
Definition column : Type := vec.

(** [v.reshape((k, 1))]: a [ValueError] unless [v] has [k] entries. *)
Definition reshape_col (v : vec) (k : nat) : result column :=
  if Nat.eqb (length v) k then Ok v else Err ValueError.

Definition width (B : matrix) : nat :=
  match B with [] => O | r :: _ => length r end.

(** [np.matmul(A, c)] for a two-dimensional [A] and a column [c]: every
    row of [A] must be as long as [c] is high; the product is a column
    with one entry per row of [A]. *)
Definition np_matmul (A : matrix) (c : column) : result column :=
  if forallb (fun r => Nat.eqb (length r) (length c)) A
  then Ok (map (fun r => dot r c) A)
  else Err ValueError.

(** [np.ravel] of a column: its entries. *)
Definition np_ravel (c : column) : vec := c.

(** [v / np.sum(v)]: the final step of every fitted driver. *)
Definition normalize (v : vec) : vec :=
  let s := np_sum v in map (fun x => fdiv x s) v.

End Np.
Export Np.

(* ================================================================== *)
(** ** Data model: tables, [ReferenceAtlas], [Sample] *)
(* ================================================================== *)

(** A cell of a pandas table. *)
Inductive value : Type :=
| VStr (s : string)
| VNum (x : float).

(** A cell read as a number; a string cell, which NumPy would keep as an
    object, reads as [nan]. *)
Definition num_of (c : value) : float :=
  match c with VNum x => x | VStr _ => NaN end.

(** A table: its number of rows and its named columns, in order. *)
Record DataFrame : Type := {
  nrows : nat;
  cols : list (string * list value)
}.

Definition columns (gr : DataFrame) : list string := map fst (cols gr).

Fixpoint lookup (k : string) (cs : list (string * list value))
  : option (list value) :=
  match cs with
  | [] => None
  | (k', c) :: cs' => if String.eqb k k' then Some c else lookup k cs'
  end.

(** [gr.name]: attribute access to a column. *)
Definition getattr (gr : DataFrame) (k : string) : result (list value) :=
  match lookup k (cols gr) with
  | Some c => Ok c
  | None => Err AttributeError
  end.

(** [gr[k]] for a [k] taken from [gr.columns]. *)
Definition getitem (gr : DataFrame) (k : string) : list value :=
  match lookup k (cols gr) with
  | Some c => c
  | None => []
  end.

(** [np.array(gr.loc[:, ks])]: one row per table row, one entry per name. *)
Definition loc (gr : DataFrame) (ks : list string) : matrix :=
  map (fun i => map (fun k => num_of (nth i (getitem gr k) (VNum NaN))) ks)
      (seq 0 (nrows gr)).

Fixpoint zip3 {X Y Z : Type} (a : list X) (b : list Y) (c : list Z)
  : list (X * Y * Z) :=
  match a, b, c with
  | x :: a', y :: b', z :: c' => (x, y, z) :: zip3 a' b' c'
  | _, _, _ => []
  end.

Definition mem (k : string) (ks : list string) : bool :=
  existsb (String.eqb k) ks.

(** The names [ReferenceAtlas] does not count as cell types. *)
Definition reserved : list string :=
  ["Chromosome"; "Start"; "End"; "type"]%string.

(** [set(gr.columns) - {'Chromosome', 'Start', 'End', 'type'}].  A Python
    set has no order of its own; the model lists it in column order. *)
Definition cell_types_of (gr : DataFrame) : list string :=
  filter (fun k => negb (mem k reserved)) (nodup string_dec (columns gr)).

Record ReferenceAtlas : Type := {
  cpg_ids : list (value * value * value);
  K : nat;
  v : list (string * list value);
  A : matrix
}.

(** [ReferenceAtlas.__init__] *)
Definition ReferenceAtlas_init (gr : DataFrame) : result ReferenceAtlas :=
  chrom <- getattr gr "Chromosome" ;;
  start <- getattr gr "Start" ;;
  end_ <- getattr gr "End" ;;
  let cell_types := cell_types_of gr in
  Ok {| cpg_ids := zip3 chrom start end_;
        K := length cell_types;
        v := map (fun k => (k, getitem gr k)) cell_types;
        A := loc gr cell_types |}.

Definition get_x (atlas : ReferenceAtlas) (sigma : column) : result column :=
  np_matmul (A atlas) sigma.

Definition get_num_cpgs (atlas : ReferenceAtlas) : nat := length (cpg_ids atlas).

Definition get_cell_types (atlas : ReferenceAtlas) : list string :=
  map fst (v atlas).

Definition get_num_cell_types (atlas : ReferenceAtlas) : nat :=
  length (map fst (v atlas)).

Record Sample : Type := {
  name : string;
  x_hat : vec;
  m : vec;
  t : vec
}.

(** [Sample.__init__] stores its four arguments. *)
Definition Sample_init (name : string) (x_hat m t : vec) : Sample :=
  {| name := name; x_hat := x_hat; m := m; t := t |}.

Definition eq_constraint (x : vec) : float := (one - np_sum x)%float.

(* ================================================================== *)
(** ** Python's [int], [math.comb] and [math.log] *)
(* ================================================================== *)

(** [int(x)] truncates towards zero; [nan] and the infinities raise. *)
Definition py_int (x : float) : result Z :=
  match x with
  | Fin q => Ok (Z.quot (Qnum q) (Zpos (Qden q)))
  | NaN => Err ValueError
  | PInf | NInf => Err OverflowError
  end.

Fixpoint binomial (n k : nat) : nat :=
  match k with
  | O => 1
  | S k' =>
      match n with
      | O => 0
      | S n' => binomial n' k' + binomial n' k
      end
  end.

(** [math.comb(n, k)]: a [ValueError] on a negative argument, zero when
    [k > n]. *)
Definition math_comb (n k : Z) : result Z :=
  if (n <? 0)%Z || (k <? 0)%Z then Err ValueError
  else Ok (Z.of_nat (binomial (Z.to_nat n) (Z.to_nat k))).

(* ================================================================== *)
(** ** Likelihood models *)
(* ================================================================== *)

Section Likelihood.

(** [scipy.stats.binom.logpmf(k, n, p)] on scalars. *)
Variable logpmf : float -> float -> float -> float.

(** The value of [math.log] on a positive integer. *)
Variable ln : Z -> Q.

(** [math.log(c)] on an integer: a [ValueError] ("math domain error")
    unless [c] is positive. *)
Definition math_log (c : Z) : result float :=
  if (c <=? 0)%Z then Err ValueError else Ok (fin (ln c)).

(** [math.log(math.comb(int(t), int(m)))] *)
Definition log_comb (mi ti : float) : result float :=
  n <- py_int ti ;;
  k <- py_int mi ;;
  c <- math_comb n k ;;
  math_log c.

(** A list comprehension whose body can raise. *)
Fixpoint comprehension {X Y : Type} (f : X -> result Y) (l : list X)
  : result (list Y) :=
  match l with
  | [] => Ok []
  | x :: l' =>
      y <- f x ;;
      ys <- comprehension f l' ;;
      Ok (y :: ys)
  end.

(** Python's built-in [sum] over a list of floats. *)
Definition py_sum (l : list float) : float := fold_left fadd l zero.

(** [np.clip(np.ravel(atlas.get_x(sigma_t)), 0, 1.0)] *)
Definition clipped_x (atlas : ReferenceAtlas) (sigma : vec) : result vec :=
  sigma_t <- reshape_col sigma (K atlas) ;;
  x <- get_x atlas sigma_t ;;
  Ok (np_clip (np_ravel x) zero one).

Definition log_likelihood_sequencing_perfect
  (atlas : ReferenceAtlas) (sigma : vec) (sample : Sample) (p01 p11 : float)
  : result float :=
  x <- clipped_x atlas sigma ;;
  b <- broadcast3 logpmf (m sample) (t sample) x ;;
  Ok (np_sum b).

Definition log_likelihood_sequencing_with_errors
  (atlas : ReferenceAtlas) (sigma : vec) (sample : Sample) (p01 p11 : float)
  : result float :=
  x <- clipped_x atlas sigma ;;
  p <- (if truthy p11 then
          broadcast2 fadd (map (fun xi => xi * p11) x)
                          (map (fun xi => (one - xi) * p01) x)
        else
          broadcast2 fadd (map (fun xi => xi * (one - p01)) x)
                          (map (fun xi => (one - xi) * p01) x))%float ;;
  b <- broadcast3 logpmf (m sample) (t sample) p ;;
  coefs <- comprehension (fun mt => log_comb (fst mt) (snd mt))
                         (combine (m sample) (t sample)) ;;
  let binomial_coef := py_sum coefs in
  Ok (np_sum b - binomial_coef)%float.

End Likelihood.

(* ================================================================== *)
(** ** Optimisation drivers *)
(* ================================================================== *)

(** What the drivers read of SciPy's [OptimizeResult]: the fields [x] and
    [fun]. *)
Record OptimizeResult : Type := {
  opt_x : vec;
  opt_fun : float
}.

Section Drivers.

Variable logpmf : float -> float -> float -> float.
Variable ln : Z -> Q.

(** [dirichlet.rvs(alpha, size=n).tolist()]: the draws of one call. *)
Variable dirichlet_rvs : vec -> nat -> list vec.

(** [minimize(f, init, method=..., options={'maxiter': ..}, bounds=..,
    constraints={'type': 'eq', 'fun': ..})].  An exception of the
    objective passes through. *)
Variable minimize :
  (vec -> result float) -> vec -> string -> nat -> list (float * float) ->
  (vec -> float) -> result OptimizeResult.

(** [scipy.optimize.nnls(A, b)]: the solution and the residual norm. *)
Variable nnls : matrix -> vec -> result (vec * float).

(** [np.array([ 1.0 / atlas.K ] * atlas.K)]: the Python division raises
    for [K = 0]. *)
Definition uniform_vector (k : nat) : result vec :=
  if Nat.eqb k 0 then Err ZeroDivisionError
  else Ok (repeat (one / of_nat k)%float k).

(** The state of the multi-start loop: [best_ll] and [best_sol]. *)
Definition best : Type := (float * option OptimizeResult)%type.

(** [for (i, init) in enumerate(initializations): ...] *)
Fixpoint trials (f : vec -> result float) (bnds : list (float * float))
  (cons : vec -> float) (initializations : list vec) (st : best)
  : result best :=
  match initializations with
  | [] => Ok st
  | init :: rest =>
      res <- minimize f init "SLSQP" 100%nat bnds cons ;;
      let ll := opt_fun res in
      trials f bnds cons rest
             (if (ll <? fst st)%float then (ll, Some res) else st)
  end.

(** [best_sol.x/np.sum(best_sol.x)]: [best_sol] may still be [None]. *)
Definition best_solution (st : best) : result vec :=
  match snd st with
  | None => Err AttributeError
  | Some best_sol => Ok (normalize (opt_x best_sol))
  end.

Definition neg_ll (ll : vec -> result float) (x : vec) : result float :=
  l <- ll x ;; Ok (of_Z (-1) * l)%float.

(** *** [python/nanomix/models.py] *)

Definition fit_llsp (atlas : ReferenceAtlas) (sample : Sample)
  (p01 p11 : float) : result vec :=
  let f := neg_ll (fun x =>
             log_likelihood_sequencing_perfect logpmf atlas x sample p01 p11) in
  let bnds := repeat (zero, one) (K atlas) in
  let cons := eq_constraint in
  alpha <- uniform_vector (K atlas) ;;
  let n_trials := 10%nat in
  let initializations := dirichlet_rvs alpha n_trials in
  st <- trials f bnds cons initializations (PInf, None) ;;
  best_solution st.

Definition fit_uniform (atlas : ReferenceAtlas) (sample : Sample) : result vec :=
  uniform_vector (K atlas).

Definition fit_llse (atlas : ReferenceAtlas) (sample : Sample)
  (p01 p11 : float) : result vec :=
  let f := neg_ll (fun x =>
             log_likelihood_sequencing_with_errors logpmf ln atlas x sample
                                                   p01 p11) in
  let bnds := repeat (zero, one) (K atlas) in
  let cons := eq_constraint in
  alpha <- uniform_vector (K atlas) ;;
  let n_trials := 10%nat in
  let initializations := dirichlet_rvs alpha n_trials in
  st <- trials f bnds cons initializations (PInf, None) ;;
  best_solution st.

(** [np.append(A, t, axis=0)]: the rows of [A] and of [t] must have the
    same length. *)
Definition np_append_rows (A t : matrix) : result matrix :=
  if forallb (fun r => Nat.eqb (length r) (width t)) A then Ok (A ++ t)
  else Err ValueError.

Definition fit_nnls (atlas : ReferenceAtlas) (sample : Sample) : result vec :=
  let t := [repeat one (K atlas)] in
  A' <- np_append_rows (A atlas) t ;;
  let b := x_hat sample ++ [one] in
  res <- nnls A' b ;;
  Ok (normalize (fst res)).

(** *** [scripts/nanomix.py]: the same drivers with a [random_inits] flag *)

Definition script_fit_llsp (atlas : ReferenceAtlas) (sample : Sample)
  (p01 p11 : float) (random_inits : bool) : result vec :=
  let f := neg_ll (fun x =>
             log_likelihood_sequencing_perfect logpmf atlas x sample p01 p11) in
  let bnds := repeat (zero, one) (K atlas) in
  let cons := eq_constraint in
  alpha <- uniform_vector (K atlas) ;;
  if random_inits then
    let n_trials := 10%nat in
    let initializations := dirichlet_rvs alpha n_trials in
    st <- trials f bnds cons initializations (PInf, None) ;;
    best_solution st
  else
    res <- minimize f alpha "SLSQP" 100%nat bnds cons ;;
    Ok (normalize (opt_x res)).

Definition script_fit_llse (atlas : ReferenceAtlas) (sample : Sample)
  (p01 p11 : float) (random_inits : bool) : result vec :=
  let f := neg_ll (fun x =>
             log_likelihood_sequencing_with_errors logpmf ln atlas x sample
                                                   p01 p11) in
  let bnds := repeat (zero, one) (K atlas) in
  let cons := eq_constraint in
  alpha <- uniform_vector (K atlas) ;;
  if random_inits then
    let n_trials := 10%nat in
    let initializations := dirichlet_rvs alpha n_trials in
    st <- trials f bnds cons initializations (PInf, None) ;;
    best_solution st
  else
    res <- minimize f alpha "SLSQP" 100%nat bnds cons ;;
    Ok (normalize (opt_x res)).

End Drivers.

(* ================================================================== *)
(** ** Entry points: [fit_model] and [deconvolve] *)
(* ================================================================== *)

(** What a run does that can be seen from outside: the files it reads, the
    drivers it starts, the lines it prints. *)
Inductive event : Type :=
| ReadCsv (path : string)
| Fitting (driver : string)
| Print (label : string) (value : option float).

(** A computation with its trace. *)
Definition io (X : Type) : Type := (list event * result X)%type.

Definition io_bind {X Y : Type} (c : io X) (k : X -> io Y) : io Y :=
  match c with
  | (tr, Ok a) => let (tr', r) := k a in (tr ++ tr', r)
  | (tr, Err e) => (tr, Err e)
  end.

Definition pure {X : Type} (r : result X) : io X := ([], r).
Definition emit (e : event) : io unit := ([e], Ok tt).
Definition trace {X : Type} (c : io X) : list event := fst c.
Definition outcome {X : Type} (c : io X) : result X := snd c.

Notation "x <~ c ;; k" := (io_bind c (fun x => k))
  (at level 61, c at next level, right associativity).

(** [df.rename(columns={'chromosome': 'Chromosome', 'chr': 'Chromosome',
    'start': 'Start', 'end': 'End'})] *)
Definition rename_column (k : string) : string :=
  if String.eqb k "chromosome" then "Chromosome"
  else if String.eqb k "chr" then "Chromosome"
  else if String.eqb k "start" then "Start"
  else if String.eqb k "end" then "End"
  else k.

Definition rename (df : DataFrame) : DataFrame :=
  {| nrows := nrows df;
     cols := map (fun kc => (rename_column (fst kc), snd kc)) (cols df) |}.

(** [df.drop(k, axis=1)] for a column that is there. *)
Definition drop (k : string) (df : DataFrame) : DataFrame :=
  {| nrows := nrows df;
     cols := filter (fun kc => negb (String.eqb (fst kc) k)) (cols df) |}.

(** [df.loc[:, ks]] as a table; a missing name is a [KeyError]. *)
Definition loc_frame (df : DataFrame) (ks : list string) : result DataFrame :=
  cs <- comprehension (fun k => match lookup k (cols df) with
                                | Some c => Ok (k, c)
                                | None => Err KeyError
                                end) ks ;;
  Ok {| nrows := nrows df; cols := cs |}.

(** [np.array(column, dtype=np.float32)]: every number is rounded to
    binary32. *)
Definition as_float32 (c : list value) : result vec :=
  comprehension (fun x => match x with
                          | VNum y => Ok (float32 y)
                          | VStr _ => Err ValueError
                          end) c.

(** [s.split('/')[-1]] and [s.split('.')[0]] *)
Fixpoint after_last_slash (s acc : string) : string :=
  match s with
  | EmptyString => acc
  | String c s' =>
      if Ascii.eqb c "/"%char then after_last_slash s' s'
      else after_last_slash s' acc
  end.

Fixpoint before_first_dot (s : string) : string :=
  match s with
  | EmptyString => EmptyString
  | String c s' =>
      if Ascii.eqb c "."%char then EmptyString else String c (before_first_dot s')
  end.

Definition get_sample_name (s : string) : string :=
  before_first_dot (after_last_slash s s).

Section Entry.

Variable logpmf : float -> float -> float -> float.
Variable ln : Z -> Q.
Variable dirichlet_rvs : vec -> nat -> list vec.
Variable minimize :
  (vec -> result float) -> vec -> string -> nat -> list (float * float) ->
  (vec -> float) -> result OptimizeResult.
Variable nnls : matrix -> vec -> result (vec * float).

(** [pd.read_csv(path, sep='\t')] *)
Variable read_csv : string -> result DataFrame.
(** [df.drop_duplicates()] and [df.dropna()] *)
Variable drop_duplicates : DataFrame -> DataFrame.
Variable dropna : DataFrame -> DataFrame.
(** [pr.PyRanges(df).sort()] and [gr_atlas.join(gr_sample)] *)
Variable PyRanges_sort : DataFrame -> result DataFrame.
Variable join : DataFrame -> DataFrame -> result DataFrame.

Definition read (path : string) : io DataFrame :=
  _ <~ emit (ReadCsv path) ;; pure (read_csv path).

Definition fitting (driver : string) (r : result vec) : io vec :=
  _ <~ emit (Fitting driver) ;; pure r.

(** [xhat = m/t; s = Sample(name, xhat, m, t)] *)
Definition make_sample (name : string) (m t : vec) : result Sample :=
  xhat <- broadcast2 fdiv m t ;;
  Ok (Sample_init name xhat m t).

(** *** [python/nanomix/models.py]: [fit_model] *)

(** The [if model == ...] chain that ends [fit_model]. *)
Definition select_model (atlas : ReferenceAtlas) (s : Sample) (model : string)
  (p01 p11 : float) : io vec :=
  if String.eqb model "nnls" then
    fitting "nnls" (fit_nnls nnls atlas s)
  else if String.eqb model "llse" then
    fitting "llse" (fit_llse logpmf ln dirichlet_rvs minimize atlas s p01 p11)
  else if String.eqb model "llsp" then
    fitting "llsp" (fit_llsp logpmf dirichlet_rvs minimize atlas s p01 p11)
  else if String.eqb model "null" then
    fitting "null" (fit_uniform atlas s)
  else
    pure (Err ValueError).

Definition fit_model (methylome atlas_path model : string) (p01 p11 : float)
  : io vec :=
  (* load atlas *)
  df_atlas <~ read atlas_path ;;
  let df_atlas := drop_duplicates (rename df_atlas) in
  let df_atlas := if mem "label" (columns df_atlas)
                  then drop "label" df_atlas else df_atlas in
  let df_atlas := dropna df_atlas in
  gr_atlas <~ pure (PyRanges_sort df_atlas) ;;
  (* read the methylome; an empty file leaves [df] unbound *)
  df <~ match read methylome with
        | (tr, Err EmptyDataError) => (tr, Err UnboundLocalError)
        | (tr, Ok d) => (tr, Ok (rename d))
        | other => other
        end ;;
  let df := dropna df in
  gr_sample <~ pure (PyRanges_sort df) ;;
  (* join atlas and sample; the test [len(gr) == 0] builds an exception
     and drops it *)
  gr <~ pure (join gr_atlas gr_sample) ;;
  gr_cols <~ pure (loc_frame gr (columns gr_atlas)) ;;
  atlas <~ pure (ReferenceAtlas_init gr_cols) ;;
  t <~ pure (c <- getattr gr "total_calls" ;; as_float32 c) ;;
  m <~ pure (c <- getattr gr "modified_calls" ;; as_float32 c) ;;
  s <~ pure (make_sample "methylome" m t) ;;
  select_model atlas s model p01 p11.

(** *** [scripts/nanomix.py]: [deconvolve] *)

(** The variables of [deconvolve] that live across loop iterations.
    [atlas] is the parameter, a path, until the first iteration rebinds it
    to a [ReferenceAtlas]; [sigma] is unbound until a driver has run. *)
Record locals : Type := {
  Y : list vec;
  sample_names : list string;
  cur_atlas : string + ReferenceAtlas;
  cur_sigma : option vec
}.

(** [true_sigma[i] = x] on an array: an [IndexError] past its end. *)
Fixpoint setitem (a : vec) (i : nat) (x : float) : result vec :=
  match a, i with
  | [], _ => Err IndexError
  | _ :: a', O => Ok (x :: a')
  | y :: a', S i' => a'' <- setitem a' i' x ;; Ok (y :: a'')
  end.

(** [for i, cell_type in enumerate(atlas.get_cell_types()): ...] *)
Fixpoint mark_true_sigma (cell_types : list string) (i : nat) (true_sigma : vec)
  : result vec :=
  match cell_types with
  | [] => Ok true_sigma
  | cell_type :: rest =>
      ts <- (if String.eqb cell_type "Lung cells" then
               setitem true_sigma i (Fin (3 # 10))
             else if String.eqb cell_type "Monocytes EPIC" then
               setitem true_sigma i (Fin (7 # 10))
             else Ok true_sigma) ;;
      mark_true_sigma rest (S i) ts
  end.

(** One iteration of [for methylome in methylomes], from the join on. *)
Definition deconvolve_one (gr_atlas df : DataFrame) (methylome model : string)
  (p01 p11 : float) (random_inits : bool) (st : locals) : io locals :=
  let df := dropna df in
  gr_sample <~ pure (PyRanges_sort df) ;;
  gr <~ pure (join gr_atlas gr_sample) ;;
  gr_cols <~ pure (loc_frame gr (columns gr_atlas)) ;;
  atlas <~ pure (ReferenceAtlas_init gr_cols) ;;
  t <~ pure (c <- getattr gr "total_calls" ;; as_float32 c) ;;
  m <~ pure (c <- getattr gr "modified_calls" ;; as_float32 c) ;;
  let name := get_sample_name methylome in
  s <~ pure (make_sample name m t) ;;
  let sample_names := sample_names st ++ [name] in
  (* Run; an unknown model builds an exception, drops it, and leaves
     [sigma] as it was *)
  sigma <~ (if String.eqb model "nnls" then
              x <~ fitting "nnls" (fit_nnls nnls atlas s) ;; pure (Ok (Some x))
            else if String.eqb model "llse" then
              x <~ fitting "llse"
                     (script_fit_llse logpmf ln dirichlet_rvs minimize
                                      atlas s p01 p11 random_inits) ;;
              pure (Ok (Some x))
            else if String.eqb model "llsp" then
              x <~ fitting "llsp"
                     (script_fit_llsp logpmf dirichlet_rvs minimize
                                      atlas s p01 p11 random_inits) ;;
              pure (Ok (Some x))
            else pure (Ok (cur_sigma st))) ;;
  sigma <~ pure (match sigma with
                 | Some x => Ok x
                 | None => Err UnboundLocalError
                 end) ;;
  let Y := Y st ++ [sigma] in
  _ <~ emit (Print ("name:" ++ name) None) ;;
  ll <~ pure (log_likelihood_sequencing_with_errors logpmf ln atlas sigma s
                                                    p01 p11) ;;
  _ <~ emit (Print "log-likelihood:" (Some ll)) ;;
  true_sigma <~ pure (mark_true_sigma (get_cell_types atlas) 0
                                      (repeat zero 25)) ;;
  ll_true <~ pure (log_likelihood_sequencing_with_errors logpmf ln atlas
                                                         true_sigma s p01 p11) ;;
  _ <~ emit (Print "with true sigma ll:" (Some ll_true)) ;;
  pure (Ok {| Y := Y; sample_names := sample_names;
              cur_atlas := inr atlas; cur_sigma := Some sigma |}).

Fixpoint deconvolve_loop (gr_atlas : DataFrame) (methylomes : list string)
  (model : string) (p01 p11 : float) (random_inits : bool) (st : locals)
  : io locals :=
  match methylomes with
  | [] => pure (Ok st)
  | methylome :: rest =>
      (* read methylomes data; an empty file is skipped *)
      match read methylome with
      | (tr, Err EmptyDataError) =>
          _ <~ (tr, Ok tt) ;;
          deconvolve_loop gr_atlas rest model p01 p11 random_inits st
      | (tr, Err e) => (tr, Err e)
      | (tr, Ok d) =>
          st' <~ (_ <~ (tr, Ok tt) ;;
                  deconvolve_one gr_atlas (rename d) methylome model p01 p11
                                 random_inits st) ;;
          deconvolve_loop gr_atlas rest model p01 p11 random_inits st'
      end
  end.

Definition deconvolve (methylomes : list string) (atlas model : string)
  (p01 p11 : float) (random_inits : bool)
  : io (list vec * list string * (string + ReferenceAtlas)) :=
  df_atlas <~ read atlas ;;
  let df_atlas := dropna (drop_duplicates (rename df_atlas)) in
  gr_atlas <~ pure (PyRanges_sort df_atlas) ;;
  st <~ deconvolve_loop gr_atlas methylomes model p01 p11 random_inits
          {| Y := []; sample_names := []; cur_atlas := inl atlas;
             cur_sigma := None |} ;;
  pure (Ok (Y st, sample_names st, cur_atlas st)).

End Entry.

(* ================================================================== *)
(** ** Well-formed inputs *)
(* ================================================================== *)

(** The atlas matrix has [K] columns. *)
Definition shaped (atlas : ReferenceAtlas) : Prop :=
  Forall (fun r => length r = K atlas) (A atlas).

(** A pair of counts at one site: whole numbers with [0 <= m <= t]. *)
Definition counts (mi ti : float) : Prop :=
  exists a b : nat, mi = of_nat a /\ ti = of_nat b /\ (a <= b)%nat.

(** A sample's [m] and [t] are counts, one pair per site of the atlas. *)
Definition valid_counts (n : nat) (sample : Sample) : Prop :=
  length (m sample) = n /\ length (t sample) = n /\
  Forall2 counts (m sample) (t sample).

(* ================================================================== *)
(** ** The sequencing-error likelihood as the specification words it *)
(* ================================================================== *)

Section SpecLikelihood.

Variable logpmf : float -> float -> float -> float.
Variable ln : Z -> Q.

(** [sum_{i < n} f i] *)
Fixpoint sigma_sum (n : nat) (f : nat -> float) : float :=
  match n with
  | O => zero
  | S n' => (sigma_sum n' f + f n')%float
  end.

(** [x[i] = clip(A[i] . sigma, 0, 1)] *)
Definition spec_x (atlas : ReferenceAtlas) (sigma : vec) (i : nat) : float :=
  fmin (fmax (dot (nth i (A atlas) []) sigma) zero) one.

(** [p[i] = x[i] p11 + (1 - x[i]) p01] when [p11] is nonzero, else
    [p[i] = x[i] (1 - p01) + (1 - x[i]) p01]. *)
Definition spec_p (atlas : ReferenceAtlas) (sigma : vec) (p01 p11 : float)
  (i : nat) : float :=
  let x := spec_x atlas sigma i in
  (if truthy p11 then x * p11 + (one - x) * p01
   else x * (one - p01) + (one - x) * p01)%float.

(** A count held in a float, as a natural number. *)
Definition count_of (x : float) : nat :=
  match x with
  | Fin q => Z.to_nat (Qfloor q)
  | _ => O
  end.

(** [log C(t, m)] *)
Definition spec_log_choose (ti mi : float) : float :=
  fin (ln (Z.of_nat (binomial (count_of ti) (count_of mi)))).

(** The binomial log-pmf summed over the sites, minus the normalisation
    term [sum_i log C(t[i], m[i])]. *)
Definition spec_log_likelihood_with_errors
  (atlas : ReferenceAtlas) (sigma : vec) (sample : Sample) (p01 p11 : float)
  : float :=
  let n := length (A atlas) in
  (sigma_sum n (fun i => logpmf (nth i (m sample) NaN) (nth i (t sample) NaN)
                                (spec_p atlas sigma p01 p11 i))
   - sigma_sum n (fun i => spec_log_choose (nth i (t sample) NaN)
                                           (nth i (m sample) NaN)))%float.

End SpecLikelihood.

(** What the likelihoods need of [binom.logpmf]: on counts
    [0 <= k <= n] and a probability within [[0,1]] it is a finite number
    or [-inf]. *)
Definition logpmf_in_range (logpmf : float -> float -> float -> float) : Prop :=
  forall k n p, counts k n -> unit_interval p -> finite_or_neginf (logpmf k n p).

(** The model names [fit_model] knows. *)
Definition supported (model : string) : Prop :=
  model = "nnls"%string \/ model = "llse"%string \/
  model = "llsp"%string \/ model = "null"%string.

(* ================================================================== *)
(** ** The multi-start loop, one result at a time *)
(* ================================================================== *)

(** The body of the loop once [minimize] has returned [res]:
    [ll = res.get("fun"); if ll < best_ll: best_ll = ll; best_sol = res]. *)
Definition keep_better (st : best) (res : OptimizeResult) : best :=
  if (opt_fun res <? fst st)%float then (opt_fun res, Some res) else st.

(** [res] beats the initial [best_ll = np.inf]. *)
Definition improves (res : OptimizeResult) : Prop :=
  (opt_fun res <? PInf)%float = true.

(** What the loop has established after the results [seen]: either no
    result has beaten [np.inf] and [best_sol] is still [None], or
    [best_sol] is one of them, it beats [np.inf], and its objective is at
    most that of every result whose objective is a number. *)
Definition selected (seen : list OptimizeResult) (st : best) : Prop :=
  match snd st with
  | None => fst st = PInf /\ Forall (fun r => ~ improves r) seen
  | Some b =>
      fst st = opt_fun b /\ In b seen /\ improves b /\
      forall r, In r seen -> is_nan (opt_fun r) = false ->
                (opt_fun b <=? opt_fun r)%float = true
  end.

(** The two maximum-likelihood drivers, by the likelihood they fit. *)
Inductive likelihood : Type :=
| Perfect      (* llsp *)
| WithErrors.  (* llse *)

Section MultiStart.

Variable logpmf : float -> float -> float -> float.
Variable ln : Z -> Q.
Variable dirichlet_rvs : vec -> nat -> list vec.
Variable minimize :
  (vec -> result float) -> vec -> string -> nat -> list (float * float) ->
  (vec -> float) -> result OptimizeResult.

(** The objective handed to [minimize]: [-1] times the log-likelihood. *)
Definition objective (l : likelihood) (atlas : ReferenceAtlas) (sample : Sample)
  (p01 p11 : float) : vec -> result float :=
  match l with
  | Perfect =>
      neg_ll (fun x =>
        log_likelihood_sequencing_perfect logpmf atlas x sample p01 p11)
  | WithErrors =>
      neg_ll (fun x =>
        log_likelihood_sequencing_with_errors logpmf ln atlas x sample p01 p11)
  end.

(** The driver of [models.py] for a likelihood. *)
Definition fit_ll (l : likelihood) : ReferenceAtlas -> Sample -> float ->
                                     float -> result vec :=
  match l with
  | Perfect => fit_llsp logpmf dirichlet_rvs minimize
  | WithErrors => fit_llse logpmf ln dirichlet_rvs minimize
  end.

(** The driver of [scripts/nanomix.py] for a likelihood. *)
Definition script_fit_ll (l : likelihood) : ReferenceAtlas -> Sample -> float ->
                                            float -> bool -> result vec :=
  match l with
  | Perfect => script_fit_llsp logpmf dirichlet_rvs minimize
  | WithErrors => script_fit_llse logpmf ln dirichlet_rvs minimize
  end.

(** One trial as the specification words it: a bounded,
    equality-constrained minimisation of [f] from [init], capped at 100
    iterations. *)
Definition trial (f : vec -> result float) (k : nat) (init : vec)
  : result OptimizeResult :=
  minimize f init "SLSQP" 100%nat (repeat (zero, one) k) eq_constraint.

(** The starting vectors as the specification words them: ten draws from
    the symmetric Dirichlet distribution with concentration [1/K]. *)
Definition starts (k : nat) : list vec :=
  dirichlet_rvs (repeat (one / of_nat k)%float k) 10.


(** No trial from the ten starts reports [nan] as its objective. *)
Definition trials_report_numbers (f : vec -> result float) (k : nat) : Prop :=
  forall init r,
    In init (starts k) -> trial f k init = Ok r -> is_nan (opt_fun r) = false.

End MultiStart.

(** [c * v] for a scalar [c]: every count multiplied by the same factor. *)
Definition rescale (c : Q) (v : vec) : vec := map (fmul (Fin c)) v.

(** [c * v] as NumPy computes it on a float32 array [v]: the scalar is
    taken as a float32 and every product is rounded to float32. *)
Definition rescale32 (c : Q) (v : vec) : vec :=
  map (fun x => float32 (float32 (Fin c) * x)%float) v.

(** The float32 products [c * v] are the exact ones: nothing is lost to
    rounding. *)
Definition exact32 (c : Q) (v : vec) : Prop := rescale32 c v = rescale c v.


(* ================================================================== *)
(** ** The simplex, and what the solvers are trusted with *)
(* ================================================================== *)

(** A mixture vector: every entry finite and at least zero, the entries
    summing to one. *)
Definition simplex (sigma : vec) : Prop :=
  Forall nonneg sigma /\ np_sum sigma = one.

(** The rational a finite float holds. *)
Definition value_of (x : float) : Q :=
  match x with Fin q => q | _ => 0 end.

(** The sum of the entries as a rational. *)
Definition total (u : vec) : Q :=
  fold_right (fun x acc => value_of x + acc) 0 u.


(** The squared residual [||A x - b||^2]. *)
Definition residual2 (A : matrix) (b x : vec) : float :=
  np_sum (map (fun d => d * d)%float
              (zip_with fsub (map (fun r => dot r x) A) b)).


Section SolverContracts.

Variable logpmf : float -> float -> float -> float.
Variable ln : Z -> Q.
Variable dirichlet_rvs : vec -> nat -> list vec.
Variable minimize :
  (vec -> result float) -> vec -> string -> nat -> list (float * float) ->
  (vec -> float) -> result OptimizeResult.



End SolverContracts.


(** A valid atlas/sample pair for fitting: at least one cell type, an
    [N x K] matrix of rates within [[0,1]], and one empirical fraction
    within [[0,1]] per site. *)
Definition valid_pair (atlas : ReferenceAtlas) (sample : Sample) : Prop :=
  K atlas <> 0%nat /\
  Forall (fun r => length r = K atlas /\ Forall unit_interval r) (A atlas) /\
  length (x_hat sample) = length (A atlas) /\
  Forall unit_interval (x_hat sample).

(* ================================================================== *)
(** ** A small world to run the model in *)
(* ================================================================== *)

Module Example.

(** Stand-ins for the library functions, simple enough to evaluate. *)

(** An integer logarithm in place of [math.log]. *)
Definition ln (z : Z) : Q := inject_Z (Z.log2 z).

(** The shape of [binom.logpmf(k, n, p)]: [nan] outside the parameter
    range, [-inf] outside the support, a finite value inside, with the
    first-order bound [q - 1] in place of [log q]. *)
Definition logpmf (k n p : float) : float :=
  match k, n, p with
  | Fin a, Fin b, Fin q =>
      if negb (Qle_bool 0 q && Qle_bool q 1) then NaN
      else if negb (Qle_bool 0 a && Qle_bool a b) then NInf
      else if Qeq_bool q 0 then (if Qeq_bool a 0 then zero else NInf)
      else if Qeq_bool q 1 then (if Qeq_bool a b then zero else NInf)
      else fin (a * (q - 1) + (b - a) * (- q))
  | _, _, _ => NaN
  end.

(** A minimiser that stops where it starts. *)
Definition minimize (f : vec -> result float) (init : vec) (method : string)
  (maxiter : nat) (bnds : list (float * float)) (cons : vec -> float)
  : result OptimizeResult :=
  fx <- f init ;; Ok {| opt_x := init; opt_fun := fx |}.

(** The [i]-th corner of the simplex over [k] cell types. *)
Definition corner (k i : nat) : vec :=
  map (fun j => if Nat.eqb j i then one else zero) (seq 0 k).

(** Draws that walk round the corners of the simplex. *)
Definition dirichlet_rvs (alpha : vec) (size : nat) : list vec :=
  map (fun i => corner (length alpha) (i mod length alpha)) (seq 0 size).

(** A least-squares solver that is right whenever the first rows of the
    system are the identity: it returns the head of the target. *)
Definition nnls (A : matrix) (b : vec) : result (vec * float) :=
  Ok (firstn (width A) b, zero).

(** The scenario of two cell types and three sites:
    [A = [[1,0],[0,1],[0.5,0.5]]], [t = [10,10,10]], [m = [9,1,5]]. *)
Definition atlas : ReferenceAtlas :=
  {| cpg_ids := [(VStr "chr1", VNum (of_Z 10), VNum (of_Z 11));
                 (VStr "chr1", VNum (of_Z 20), VNum (of_Z 21));
                 (VStr "chr1", VNum (of_Z 30), VNum (of_Z 31))];
     K := 2;
     v := [("a"%string, [VNum one; VNum zero; VNum (Fin (1 # 2))]);
           ("b"%string, [VNum zero; VNum one; VNum (Fin (1 # 2))])];
     A := [[one; zero]; [zero; one]; [Fin (1 # 2); Fin (1 # 2)]] |}.

Definition sample : Sample :=
  {| name := "s";
     x_hat := [Fin (9 # 10); Fin (1 # 10); Fin (1 # 2)];
     m := [of_nat 9; of_nat 1; of_nat 5];
     t := [of_nat 10; of_nat 10; of_nat 10] |}.

(** One site whose atlas rate is zero for the only cell type, and a
    sample with a methylated call there. *)
Definition dark_atlas : ReferenceAtlas :=
  {| cpg_ids := [(VStr "chr1", VNum (of_Z 10), VNum (of_Z 11))];
     K := 1;
     v := [("a"%string, [VNum zero])];
     A := [[zero]] |}.

Definition lit_sample : Sample :=
  {| name := "s"; x_hat := [one]; m := [of_nat 1]; t := [of_nat 1] |}.

(** Tables: an atlas with two cell types, one with none, a methylome. *)
Definition coordinates : list (string * list value) :=
  [("Chromosome"%string, [VStr "chr1"; VStr "chr1"]);
   ("Start"%string, [VNum (of_Z 10); VNum (of_Z 20)]);
   ("End"%string, [VNum (of_Z 11); VNum (of_Z 21)])].

Definition atlas_table : DataFrame :=
  {| nrows := 2;
     cols := coordinates ++
             [("a"%string, [VNum one; VNum zero]);
              ("b"%string, [VNum zero; VNum one])] |}.

Definition coordinates_only : DataFrame :=
  {| nrows := 2; cols := coordinates |}.

Definition methylome_table : DataFrame :=
  {| nrows := 2;
     cols := coordinates ++
             [("total_calls"%string, [VNum (of_Z 10); VNum (of_Z 10)]);
              ("modified_calls"%string, [VNum (of_Z 9); VNum (of_Z 1)])] |}.

(** A file system with two files. *)
Definition read_csv (path : string) : result DataFrame :=
  if String.eqb path "atlas.tsv" then Ok atlas_table
  else if String.eqb path "sample.tsv" then Ok methylome_table
  else Err FileNotFoundError.

Definition keep (df : DataFrame) : DataFrame := df.

Definition PyRanges_sort (df : DataFrame) : result DataFrame := Ok df.

(** A join of two tables that list the same sites in the same order: the
    columns of the first, then the columns only the second has. *)
Definition join (a b : DataFrame) : result DataFrame :=
  Ok {| nrows := nrows a;
        cols := cols a ++
                filter (fun kc => negb (mem (fst kc) (columns a))) (cols b) |}.

End Example.

(* ================================================================== *)
(** ** Vocabulary for the further properties *)
(* ================================================================== *)

(** The character [c] occurs in [s]. *)
Fixpoint occurs (c : ascii) (s : string) : bool :=
  match s with
  | EmptyString => false
  | String c' s' => Ascii.eqb c' c || occurs c s'
  end.

(** A float in the form every arithmetic result has: a special value, or
    a rational in lowest terms. *)
Definition canonical (x : float) : Prop :=
  match x with Fin q => Qred q = q | _ => True end.

(** A pair of whole-number counts, with no order between them. *)
Definition whole (mi ti : float) : Prop :=
  exists a b : nat, mi = of_nat a /\ ti = of_nat b.

(** More methylated calls than calls at a site. *)
Definition overcounted (mt : float * float) : Prop :=
  exists a b : nat, fst mt = of_nat a /\ snd mt = of_nat b /\ (b < a)%nat.

(** A table whose columns all have one cell per row. *)
Definition rectangular (gr : DataFrame) : Prop :=
  forall k c, lookup k (cols gr) = Some c -> length c = nrows gr.

(** The model names the script's [deconvolve] knows. *)
Definition script_supported (model : string) : Prop :=
  model = "nnls"%string \/ model = "llse"%string \/ model = "llsp"%string.


(** What the loop has established, with the position of the kept result:
    either nothing has beaten [np.inf], or the kept result [b] beats it,
    no earlier result is at most as good, and no later one is better. *)
Definition first_best (seen : list OptimizeResult) (st : best) : Prop :=
  match snd st with
  | None => fst st = PInf /\ Forall (fun r => ~ improves r) seen
  | Some b =>
      fst st = opt_fun b /\ improves b /\
      exists pre post,
        seen = pre ++ b :: post /\
        Forall (fun r => (opt_fun r <=? opt_fun b)%float = false) pre /\
        Forall (fun r => (opt_fun r <? opt_fun b)%float = false) post
  end.


(** Further stand-ins, for the edge cases. *)
Module Edge.

(** A least-squares solver that gives up at the zero vector. *)
Definition nnls (A : matrix) (b : vec) : result (vec * float) :=
  Ok (repeat zero (width A), zero).

(** A file system with an atlas, a methylome and an empty file. *)
Definition read_csv (path : string) : result DataFrame :=
  if String.eqb path "empty.tsv" then Err EmptyDataError
  else Example.read_csv path.

(** An atlas of twenty-five cell types over the two sites of the
    methylome, every rate one half. *)
Definition wide_atlas_table : DataFrame :=
  {| nrows := 2;
     cols := Example.coordinates ++
             map (fun i => (String (ascii_of_nat (65 + i)) EmptyString,
                            [VNum (Fin (1 # 2)); VNum (Fin (1 # 2))]))
                 (seq 0 25) |}.

Definition read_wide (path : string) : result DataFrame :=
  if String.eqb path "wide.tsv" then Ok wide_atlas_table
  else read_csv path.

(** A minimiser that always ends at the centre of the simplex. *)
Definition minimize (f : vec -> result float) (init : vec) (method : string)
  (maxiter : nat) (bnds : list (float * float)) (cons : vec -> float)
  : result OptimizeResult :=
  let x := repeat (one / of_nat (length init))%float (length init) in
  fx <- f x ;; Ok {| opt_x := x; opt_fun := fx |}.





(** Counts over the three sites of [Example.atlas] with
    [m/t = [3/7, 4/7, 1/2]], and a factor that takes [3c] and [7c] past
    [2^24], where float32 no longer holds every whole number. *)
Definition sevenths_m : vec := [of_nat 3; of_nat 4; of_nat 1].
Definition sevenths_t : vec := [of_nat 7; of_nat 7; of_nat 2].
Definition large_factor : Q := 5592407.

(** [fit_model]'s dispatch on the scenario of [Example], with the
    minimiser that ends at the centre. *)
Definition run (model : string) : result vec :=
  outcome (select_model Example.logpmf Example.ln Example.dirichlet_rvs
                        minimize Example.nnls Example.atlas Example.sample
                        model (Fin (5 # 100)) (Fin (95 # 100))).

End Edge.


(** What holds of the loop variables of [deconvolve] between iterations:
    one name per fitted vector, every fitted vector of twenty-five
    entries, and [atlas] either still the path (before the first fit) or
    an atlas of twenty-five cell types. *)
Definition between_iterations (path : string) (st : locals) : Prop :=
  length (Y st) = length (sample_names st) /\
  Forall (fun y => length y = 25%nat) (Y st) /\
  match cur_atlas st with
  | inl p => p = path /\ Y st = []
  | inr a => K a = 25%nat
  end.


(* ================================================================== *)
(** * Properties *)
(* ================================================================== *)

(** ** C10: the perfect-calling likelihood does not read the rates *)

(** C10.  [log_likelihood_sequencing_perfect] accepts [p01] and [p11] and
    ignores them: any two pairs of rates give the same value, or the same
    exception, on the same atlas, mixture vector and sample. *)
Theorem perfect_likelihood_ignores_rates :
  forall logpmf atlas sigma sample p01 p11 p01' p11',
    log_likelihood_sequencing_perfect logpmf atlas sigma sample p01 p11 =
    log_likelihood_sequencing_perfect logpmf atlas sigma sample p01' p11'.
Proof.
  intros. unfold log_likelihood_sequencing_perfect. reflexivity.
Qed.

(** ** C9: what [ReferenceAtlas] accepts *)

Lemma getattr_present :
  forall gr k, In k (columns gr) -> exists c, getattr gr k = Ok c.
Proof.
  intros gr k. unfold getattr, columns.
  induction (cols gr) as [|[k' c] cs IH]; simpl; intros H.
  - contradiction.
  - destruct (String.eqb k k') eqn:E.
    + eauto.
    + destruct H as [H|H].
      * subst k'. rewrite String.eqb_refl in E. discriminate.
      * exact (IH H).
Qed.

Lemma loc_shape :
  forall gr ks,
    length (loc gr ks) = nrows gr /\
    Forall (fun r => length r = length ks) (loc gr ks).
Proof.
  intros gr ks. unfold loc. split.
  - rewrite length_map, length_seq. reflexivity.
  - apply Forall_forall. intros r Hr.
    apply in_map_iff in Hr. destruct Hr as [i [<- _]].
    apply length_map.
Qed.

(** C9, as the code has it.  [ReferenceAtlas] never rejects a table for
    its cell-type columns: on every table that has the three coordinate
    columns the constructor returns an atlas, [K] is the number of
    distinct column names outside [Chromosome], [Start], [End] and
    [type] (zero included), and [A] has one row per table row and [K]
    entries per row. *)
Theorem ReferenceAtlas_init_accepts :
  forall gr,
    In "Chromosome"%string (columns gr) ->
    In "Start"%string (columns gr) ->
    In "End"%string (columns gr) ->
    exists atlas,
      ReferenceAtlas_init gr = Ok atlas /\
      K atlas = length (cell_types_of gr) /\
      length (A atlas) = nrows gr /\
      shaped atlas.
Proof.
  intros gr Hc Hs He.
  destruct (getattr_present gr _ Hc) as [chrom Ec].
  destruct (getattr_present gr _ Hs) as [start Es].
  destruct (getattr_present gr _ He) as [end_ Ee].
  unfold ReferenceAtlas_init. rewrite Ec, Es, Ee. simpl.
  eexists. split; [reflexivity|].
  destruct (loc_shape gr (cell_types_of gr)) as [Hn Hw].
  unfold shaped. simpl. auto.
Qed.

Lemma ReferenceAtlas_init_accepts_witness :
  exists atlas,
    ReferenceAtlas_init Example.atlas_table = Ok atlas /\
    K atlas = length (cell_types_of Example.atlas_table) /\
    length (A atlas) = nrows Example.atlas_table /\
    shaped atlas.
Proof.
  apply ReferenceAtlas_init_accepts; simpl; auto 10.
Defined.

(** C9, counterexample.  A table with the coordinate columns and nothing
    else has no cell-type column left; the constructor returns an atlas
    with [K = 0] and raises nothing. *)
Lemma atlas_without_cell_types_is_built :
  cell_types_of Example.coordinates_only = [] /\
  exists atlas,
    ReferenceAtlas_init Example.coordinates_only = Ok atlas /\
    K atlas = 0%nat /\ A atlas = [[]; []].
Proof.
  split; [reflexivity|].
  eexists. split; [reflexivity|]. split; reflexivity.
Qed.

(** ** Arrays of equal length *)

Lemma bshape_same : forall n, bshape n n = Some n.
Proof. intros n. unfold bshape. rewrite Nat.eqb_refl. reflexivity. Qed.

Lemma expand_same : forall v, expand v (length v) = v.
Proof. intros u. unfold expand. rewrite Nat.eqb_refl. reflexivity. Qed.

Lemma broadcast2_same :
  forall f a b, length a = length b -> broadcast2 f a b = Ok (zip_with f a b).
Proof.
  intros f a b H. unfold broadcast2.
  rewrite H, bshape_same, <- H, expand_same, H, expand_same. reflexivity.
Qed.

Lemma broadcast3_same :
  forall f a b c,
    length a = length c -> length b = length c ->
    broadcast3 f a b c = Ok (zip_with3 f a b c).
Proof.
  intros f a b c Ha Hb. unfold broadcast3.
  rewrite Ha, Hb, !bshape_same.
  rewrite <- Ha at 1. rewrite <- Hb at 1. rewrite !expand_same. reflexivity.
Qed.



Lemma zip_with_map :
  forall f g h (l : vec),
    zip_with f (map g l) (map h l) = map (fun x => f (g x) (h x)) l.
Proof.
  intros f g h l. induction l as [|x l IH]; simpl; congruence.
Qed.

(** ** C8: how [x_hat] is computed *)






(** ** C7: an unknown model name *)

Section UnknownModel.

Variable logpmf : float -> float -> float -> float.
Variable ln : Z -> Q.
Variable dirichlet_rvs : vec -> nat -> list vec.
Variable minimize :
  (vec -> result float) -> vec -> string -> nat -> list (float * float) ->
  (vec -> float) -> result OptimizeResult.
Variable nnls : matrix -> vec -> result (vec * float).
Variable read_csv : string -> result DataFrame.
Variable drop_duplicates dropna : DataFrame -> DataFrame.
Variable PyRanges_sort : DataFrame -> result DataFrame.
Variable join : DataFrame -> DataFrame -> result DataFrame.

Let run := fit_model logpmf ln dirichlet_rvs minimize nnls read_csv
                     drop_duplicates dropna PyRanges_sort join.

Lemma select_model_unknown :
  forall atlas s model p01 p11,
    ~ supported model ->
    select_model logpmf ln dirichlet_rvs minimize nnls atlas s model p01 p11
    = ([], Err ValueError).
Proof.
  intros atlas s model p01 p11 H. unfold select_model.
  destruct (String.eqb model "nnls") eqn:E1;
    [apply String.eqb_eq in E1; exfalso; apply H; unfold supported; auto|].
  destruct (String.eqb model "llse") eqn:E2;
    [apply String.eqb_eq in E2; exfalso; apply H; unfold supported; auto|].
  destruct (String.eqb model "llsp") eqn:E3;
    [apply String.eqb_eq in E3; exfalso; apply H; unfold supported; auto|].
  destruct (String.eqb model "null") eqn:E4;
    [apply String.eqb_eq in E4; exfalso; apply H; unfold supported; auto|].
  reflexivity.
Qed.

Lemma select_model_null :
  forall atlas s p01 p11,
    select_model logpmf ln dirichlet_rvs minimize nnls atlas s "null" p01 p11
    = ([Fitting "null"], fit_uniform atlas s).
Proof. reflexivity. Qed.

Ltac step :=
  match goal with
  | |- context [match ?c with Ok _ => _ | Err _ => _ end] =>
      destruct c eqn:?; simpl
  | |- context [match ?e with ValueError => _ | _ => _ end] =>
      destruct e; simpl
  end.

(** C7, as the code has it.  For a model name outside [nnls], [llse],
    [llsp], [null], [fit_model] never returns a mixture vector and starts
    no driver, and the atlas file is read before the name is looked at:
    the run reads the atlas, or the atlas and the methylome, and ends in
    an exception.  When the same files load far enough for the [null]
    model to start fitting, that exception is the [ValueError] of the
    final [else], raised after both reads. *)
Theorem unknown_model_fails_after_loading :
  forall methylome atlas_path model p01 p11,
    ~ supported model ->
    let r := run methylome atlas_path model p01 p11 in
    raises (outcome r) /\
    (forall d, ~ In (Fitting d) (trace r)) /\
    (trace r = [ReadCsv atlas_path] \/
     trace r = [ReadCsv atlas_path; ReadCsv methylome]) /\
    (In (Fitting "null") (trace (run methylome atlas_path "null" p01 p11)) ->
     r = ([ReadCsv atlas_path; ReadCsv methylome], Err ValueError)).
Proof.
  intros methylome atlas_path model p01 p11 H r.
  assert (Hmain :
    raises (outcome r) /\
    (trace r = [ReadCsv atlas_path] \/
     trace r = [ReadCsv atlas_path; ReadCsv methylome]) /\
    (In (Fitting "null") (trace (run methylome atlas_path "null" p01 p11)) ->
     r = ([ReadCsv atlas_path; ReadCsv methylome], Err ValueError))).
  { subst r. unfold run, fit_model, read, emit, pure, io_bind. simpl.
    repeat (first
      [ rewrite (select_model_unknown _ _ _ _ _ H)
      | rewrite select_model_null
      | step ]; simpl);
    repeat split; auto;
    try (intros [A|[A|A]]; solve [discriminate A | contradiction]);
    try (intros [A|A]; solve [discriminate A | contradiction]);
    try (intros []). }
  destruct Hmain as [Hr [Ht Hv]].
  repeat split; auto.
  intros d Hd. destruct Ht as [Ht|Ht]; rewrite Ht in Hd; simpl in Hd;
    intuition discriminate.
Qed.

End UnknownModel.

Lemma unknown_model_fails_after_loading_witness :
  let r := fit_model Example.logpmf Example.ln Example.dirichlet_rvs
                     Example.minimize Example.nnls Example.read_csv
                     Example.keep Example.keep Example.PyRanges_sort
                     Example.join "sample.tsv" "atlas.tsv" "foo" zero one in
  raises (outcome r) /\
  (forall d, ~ In (Fitting d) (trace r)) /\
  (trace r = [ReadCsv "atlas.tsv"] \/
   trace r = [ReadCsv "atlas.tsv"; ReadCsv "sample.tsv"]) /\
  (In (Fitting "null")
      (trace (fit_model Example.logpmf Example.ln Example.dirichlet_rvs
                        Example.minimize Example.nnls Example.read_csv
                        Example.keep Example.keep Example.PyRanges_sort
                        Example.join "sample.tsv" "atlas.tsv" "null" zero one)) ->
   r = ([ReadCsv "atlas.tsv"; ReadCsv "sample.tsv"], Err ValueError)).
Proof.
  apply (unknown_model_fails_after_loading
           Example.logpmf Example.ln Example.dirichlet_rvs Example.minimize
           Example.nnls Example.read_csv Example.keep Example.keep
           Example.PyRanges_sort Example.join
           "sample.tsv" "atlas.tsv" "foo" zero one).
  unfold supported. intros [H|[H|[H|H]]]; discriminate H.
Defined.

(** C7, counterexample.  With the model name [foo], [fit_model] has read
    both files by the time it raises. *)
Lemma unknown_model_is_found_after_the_reads :
  fit_model Example.logpmf Example.ln Example.dirichlet_rvs Example.minimize
            Example.nnls Example.read_csv Example.keep Example.keep
            Example.PyRanges_sort Example.join
            "sample.tsv" "atlas.tsv" "foo" zero one
  = ([ReadCsv "atlas.tsv"; ReadCsv "sample.tsv"], Err ValueError).
Proof. reflexivity. Qed.

(** In [deconvolve] the exception for an unknown model is built and not
    raised; the run ends at [Y.append(sigma)] with [sigma] unbound. *)
Example deconvolve_unknown_model :
  deconvolve Example.logpmf Example.ln Example.dirichlet_rvs Example.minimize
             Example.nnls Example.read_csv Example.keep Example.keep
             Example.PyRanges_sort Example.join
             ["sample.tsv"%string] "atlas.tsv" "foo" zero one true
  = ([ReadCsv "atlas.tsv"; ReadCsv "sample.tsv"], Err UnboundLocalError).
Proof. reflexivity. Qed.

(** ** Sums and indices *)

Lemma np_sum_snoc : forall l x, np_sum (l ++ [x]) = (np_sum l + x)%float.
Proof. intros l x. unfold np_sum. rewrite fold_left_app. reflexivity. Qed.

Lemma np_sum_indexed :
  forall n f, np_sum (map f (seq 0 n)) = sigma_sum n f.
Proof.
  intros n f. induction n as [|n IH].
  - reflexivity.
  - rewrite seq_S, map_app. cbn [map Nat.add].
    rewrite np_sum_snoc, IH. reflexivity.
Qed.

Lemma map_indexed :
  forall {X Y : Type} (f : X -> Y) (l : list X) (d : X),
    map f l = map (fun i => f (nth i l d)) (seq 0 (length l)).
Proof.
  intros X Y f l d. induction l as [|x l IH]; simpl.
  - reflexivity.
  - rewrite <- seq_shift, map_map. f_equal. exact IH.
Qed.

Lemma zip_with3_indexed :
  forall f a b c n d,
    length a = n -> length b = n -> length c = n ->
    zip_with3 f a b c =
    map (fun i => f (nth i a d) (nth i b d) (nth i c d)) (seq 0 n).
Proof.
  intros f a. induction a as [|x a IH]; intros [|y b] [|z c] n d Ha Hb Hc;
    simpl in *; subst n; try discriminate; try reflexivity.
  simpl. rewrite <- seq_shift, map_map. f_equal.
  apply IH; congruence.
Qed.

(** ** The expected methylation vector *)

Lemma clipped_x_shaped :
  forall atlas sigma,
    shaped atlas -> length sigma = K atlas ->
    clipped_x atlas sigma =
    Ok (map (fun r => fmin (fmax (dot r sigma) zero) one) (A atlas)).
Proof.
  intros atlas sigma Hs Hl. unfold clipped_x, reshape_col, get_x, np_matmul.
  rewrite Hl, Nat.eqb_refl. simpl.
  replace (forallb (fun r => Nat.eqb (length r) (length sigma)) (A atlas))
    with true.
  - simpl. unfold np_ravel, np_clip. rewrite map_map. reflexivity.
  - symmetry. apply forallb_forall. intros r Hr.
    unfold shaped in Hs. rewrite Forall_forall in Hs.
    rewrite (Hs r Hr), Hl. apply Nat.eqb_refl.
Qed.

Lemma clipped_x_indexed :
  forall atlas sigma,
    shaped atlas -> length sigma = K atlas ->
    clipped_x atlas sigma =
    Ok (map (spec_x atlas sigma) (seq 0 (length (A atlas)))).
Proof.
  intros atlas sigma Hs Hl. rewrite (clipped_x_shaped _ _ Hs Hl).
  f_equal.
  exact (map_indexed (fun r => fmin (fmax (dot r sigma) zero) one) (A atlas) []).
Qed.

(** ** Counts and binomial coefficients *)

Lemma binomial_positive :
  forall n k, (k <= n)%nat -> (1 <= binomial n k)%nat.
Proof.
  induction n as [|n IH]; intros [|k] H; simpl; try lia.
  specialize (IH k). lia.
Qed.

Lemma py_int_of_nat : forall a, py_int (of_nat a) = Ok (Z.of_nat a).
Proof.
  intros a. unfold py_int, of_nat, of_Z. simpl. rewrite Z.quot_1_r. reflexivity.
Qed.

Lemma count_of_of_nat : forall a, count_of (of_nat a) = a.
Proof.
  intros a. unfold count_of, of_nat, of_Z. rewrite Qfloor_Z. apply Nat2Z.id.
Qed.

Lemma log_comb_counts :
  forall ln mi ti,
    counts mi ti -> log_comb ln mi ti = Ok (spec_log_choose ln ti mi).
Proof.
  intros ln mi ti [a [b [-> [-> Hab]]]].
  unfold log_comb, spec_log_choose.
  rewrite !py_int_of_nat, !count_of_of_nat. cbn [bind].
  unfold math_comb.
  destruct (Z.ltb_spec (Z.of_nat b) 0); [lia|].
  destruct (Z.ltb_spec (Z.of_nat a) 0); [lia|]. cbn [orb bind].
  rewrite !Nat2Z.id. unfold math_log.
  pose proof (binomial_positive b a Hab).
  destruct (Z.leb_spec (Z.of_nat (binomial b a)) 0); [lia|]. reflexivity.
Qed.

Lemma comprehension_counts :
  forall ln ms ts,
    Forall2 counts ms ts ->
    comprehension (fun mt => log_comb ln (fst mt) (snd mt)) (combine ms ts) =
    Ok (map (fun i => spec_log_choose ln (nth i ts NaN) (nth i ms NaN))
            (seq 0 (length ms))).
Proof.
  intros ln ms ts H. induction H as [|mi ti ms ts Hc H IH]; simpl.
  - reflexivity.
  - rewrite (log_comb_counts _ _ _ Hc). simpl. rewrite IH. simpl.
    rewrite <- seq_shift, map_map. reflexivity.
Qed.

Lemma nth_map_seq :
  forall (g : nat -> float) n i d,
    (i < n)%nat -> nth i (map g (seq 0 n)) d = g i.
Proof.
  intros g n i d H.
  rewrite (nth_indep _ d (g O)) by (rewrite length_map, length_seq; exact H).
  rewrite map_nth, seq_nth by exact H. reflexivity.
Qed.

Lemma call_probability_map :
  forall xs p01 p11,
    (if truthy p11 then
       broadcast2 fadd (map (fun xi => xi * p11) xs)
                       (map (fun xi => (one - xi) * p01) xs)
     else
       broadcast2 fadd (map (fun xi => xi * (one - p01)) xs)
                       (map (fun xi => (one - xi) * p01) xs))%float
    = Ok (map (fun xi => if truthy p11 then xi * p11 + (one - xi) * p01
                         else xi * (one - p01) + (one - xi) * p01)%float xs).
Proof.
  intros xs p01 p11.
  destruct (truthy p11);
    rewrite broadcast2_same by (rewrite !length_map; reflexivity);
    rewrite zip_with_map; reflexivity.
Qed.

(** ** C2: the sequencing-error likelihood *)

(** C2.  On an atlas whose matrix has [K] columns, a mixture vector of
    [K] entries and a sample with one pair of counts [0 <= m[i] <= t[i]]
    per site, [log_likelihood_sequencing_with_errors] returns the sum over
    the sites of [logpmf(m[i], t[i], p[i])] minus the sum of
    [log C(t[i], m[i])], with [x[i] = clip(A[i] . sigma, 0, 1)] and
    [p[i] = x[i] p11 + (1 - x[i]) p01] when [p11] is nonzero, else
    [p[i] = x[i] (1 - p01) + (1 - x[i]) p01]. *)
Theorem with_errors_likelihood_meets_spec :
  forall logpmf ln atlas sigma sample p01 p11,
    shaped atlas ->
    length sigma = K atlas ->
    valid_counts (length (A atlas)) sample ->
    log_likelihood_sequencing_with_errors logpmf ln atlas sigma sample p01 p11
    = Ok (spec_log_likelihood_with_errors logpmf ln atlas sigma sample p01 p11).
Proof.
  intros logpmf ln atlas sigma sample p01 p11 Hs Hl [Hm [Ht Hc]].
  unfold log_likelihood_sequencing_with_errors, spec_log_likelihood_with_errors.
  rewrite (clipped_x_indexed _ _ Hs Hl). cbn [bind].
  rewrite call_probability_map, map_map. cbn [bind].
  fold (spec_p atlas sigma p01 p11).
  set (n := length (A atlas)) in *.
  rewrite broadcast3_same by (rewrite length_map, length_seq; assumption).
  cbn [bind].
  rewrite (comprehension_counts _ _ _ Hc). cbn [bind].
  rewrite (zip_with3_indexed _ _ _ _ n NaN Hm Ht)
    by (rewrite length_map, length_seq; reflexivity).
  assert (E : map (fun i => logpmf (nth i (m sample) NaN) (nth i (t sample) NaN)
                      (nth i (map (spec_p atlas sigma p01 p11) (seq 0 n)) NaN))
                  (seq 0 n)
              = map (fun i => logpmf (nth i (m sample) NaN) (nth i (t sample) NaN)
                                     (spec_p atlas sigma p01 p11 i))
                    (seq 0 n)).
  { apply map_ext_in. intros i Hi. apply in_seq in Hi.
    rewrite nth_map_seq by lia. reflexivity. }
  rewrite E, Hm. unfold py_sum.
  change (fold_left fadd ?l zero) with (np_sum l).
  rewrite !np_sum_indexed. reflexivity.
Qed.

Lemma with_errors_likelihood_meets_spec_witness :
  log_likelihood_sequencing_with_errors
    Example.logpmf Example.ln Example.atlas [Fin (9 # 10); Fin (1 # 10)]
    Example.sample (Fin (5 # 100)) (Fin (95 # 100))
  = Ok (spec_log_likelihood_with_errors
          Example.logpmf Example.ln Example.atlas [Fin (9 # 10); Fin (1 # 10)]
          Example.sample (Fin (5 # 100)) (Fin (95 # 100))).
Proof.
  apply with_errors_likelihood_meets_spec.
  - repeat constructor.
  - reflexivity.
  - repeat split; try reflexivity.
    repeat constructor;
      [exists 9%nat, 10%nat | exists 1%nat, 10%nat | exists 5%nat, 10%nat];
      repeat split; lia.
Defined.

(** ** Float arithmetic on finite values *)

Lemma finite_fadd : forall x y, finite x -> finite y -> finite (x + y)%float.
Proof. intros [| |a|] [| |b|]; simpl; auto. Qed.

Lemma finite_fmul : forall x y, finite x -> finite y -> finite (x * y)%float.
Proof. intros [| |a|] [| |b|]; simpl; tauto. Qed.

Lemma finite_or_neginf_fadd :
  forall x y,
    finite_or_neginf x -> finite_or_neginf y -> finite_or_neginf (x + y)%float.
Proof. intros [| |a|] [| |b|]; simpl; auto. Qed.

Lemma finite_or_neginf_fsub :
  forall x y, finite_or_neginf x -> finite y -> finite_or_neginf (x - y)%float.
Proof. intros [| |a|] [| |b|]; simpl; auto. Qed.

Lemma fold_fadd_invariant :
  forall (P : float -> Prop),
    (forall x y, P x -> P y -> P (x + y)%float) ->
    forall l acc, P acc -> Forall P l -> P (fold_left fadd l acc).
Proof.
  intros P Hadd l. induction l as [|x l IH]; intros acc Hacc Hl; simpl.
  - exact Hacc.
  - inversion Hl; subst. apply IH; auto.
Qed.

Lemma np_sum_finite : forall l, Forall finite l -> finite (np_sum l).
Proof.
  intros l H. apply (fold_fadd_invariant finite finite_fadd); simpl; auto.
Qed.

Lemma np_sum_finite_or_neginf :
  forall l, Forall finite_or_neginf l -> finite_or_neginf (np_sum l).
Proof.
  intros l H.
  apply (fold_fadd_invariant finite_or_neginf finite_or_neginf_fadd);
    simpl; auto.
Qed.

Lemma zip_with_Forall :
  forall (P Q R : float -> Prop) f,
    (forall x y, P x -> Q y -> R (f x y)) ->
    forall a b, Forall P a -> Forall Q b -> Forall R (zip_with f a b).
Proof.
  intros P Q R f Hf a. induction a as [|x a IH]; intros [|y b] Ha Hb; simpl;
    auto.
  inversion Ha; inversion Hb; subst. constructor; auto.
Qed.

Lemma dot_finite :
  forall r c, Forall finite r -> Forall finite c -> finite (dot r c).
Proof.
  intros r c Hr Hc. unfold dot. apply np_sum_finite.
  apply (zip_with_Forall finite finite finite fmul finite_fmul); assumption.
Qed.


(** Clipping a finite number lands in [[0,1]]. *)
Lemma clip_unit_interval :
  forall x, finite x -> unit_interval (fmin (fmax x zero) one).
Proof.
  intros [| |q|] H; simpl in H; try contradiction.
  unfold fmax, zero, one. simpl.
  destruct (q ?= 0) eqn:E0; simpl.
  - apply Qeq_alt in E0.
    destruct (1 ?= q) eqn:E1; simpl.
    + apply Qeq_alt in E1. lra.
    + apply Qlt_alt in E1. lra.
    + lra.
  - lra.
  - apply Qgt_alt in E0.
    destruct (1 ?= q) eqn:E1; simpl.
    + apply Qeq_alt in E1. lra.
    + apply Qlt_alt in E1. lra.
    + apply Qgt_alt in E1. lra.
Qed.

Lemma fin_unit_interval : forall q, 0 <= q <= 1 -> unit_interval (fin q).
Proof. intros q H. unfold fin. simpl. rewrite Qred_correct. exact H. Qed.

(** A convex combination of two probabilities is a probability. *)
Lemma mix_unit_interval :
  forall x a b,
    unit_interval x -> unit_interval a -> unit_interval b ->
    unit_interval (x * a + (one - x) * b)%float.
Proof.
  intros [| |x|] [| |a|] [| |b|] Hx Ha Hb; simpl in Hx, Ha, Hb;
    try contradiction.
  cbn [fmul fadd fsub fopp fin unit_interval one].
  rewrite !Qred_correct. split; nra.
Qed.

Lemma complement_unit_interval :
  forall a, unit_interval a -> unit_interval (one - a)%float.
Proof.
  intros [| |a|] Ha; simpl in Ha; try contradiction.
  cbn [fadd fsub fopp fin unit_interval one].
  rewrite !Qred_correct. lra.
Qed.

Lemma zip_with3_Forall :
  forall (R : float -> float -> Prop) (P Q : float -> Prop) f,
    (forall x y z, R x y -> P z -> Q (f x y z)) ->
    forall a b c, Forall2 R a b -> Forall P c -> Forall Q (zip_with3 f a b c).
Proof.
  intros R P Q f Hf a b c Hab. revert c.
  induction Hab as [|x y a b Hxy Hab IH]; intros [|z c] Hc; simpl; auto.
  inversion Hc; subst. constructor; auto.
Qed.

Lemma clipped_x_unit_interval :
  forall atlas sigma,
    shaped atlas -> Forall (Forall finite) (A atlas) ->
    length sigma = K atlas -> Forall finite sigma ->
    exists x,
      clipped_x atlas sigma = Ok x /\
      length x = length (A atlas) /\
      Forall unit_interval x.
Proof.
  intros atlas sigma Hs Hf Hl Hsig.
  rewrite (clipped_x_shaped _ _ Hs Hl). eexists. split; [reflexivity|].
  split; [apply length_map|].
  apply Forall_map. revert Hf. apply Forall_impl.
  intros r Hr. apply clip_unit_interval, dot_finite; assumption.
Qed.

(** ** The likelihoods on valid inputs *)

Section DefinedLikelihoods.

Variable logpmf : float -> float -> float -> float.
Variable ln : Z -> Q.
Variable atlas : ReferenceAtlas.
Variable sample : Sample.
Variables p01 p11 : float.

Hypothesis logpmf_range : logpmf_in_range logpmf.
Hypothesis atlas_shaped : shaped atlas.
Hypothesis atlas_finite : Forall (Forall finite) (A atlas).
Hypothesis sample_counts : valid_counts (length (A atlas)) sample.
Hypothesis p01_rate : unit_interval p01.
Hypothesis p11_rate : unit_interval p11.

Lemma perfect_likelihood_defined :
  forall sigma,
    length sigma = K atlas -> Forall finite sigma ->
    exists l,
      log_likelihood_sequencing_perfect logpmf atlas sigma sample p01 p11
      = Ok l /\ finite_or_neginf l.
Proof.
  intros sigma Hl Hsig. destruct sample_counts as [Hm [Ht Hc]].
  destruct (clipped_x_unit_interval _ _ atlas_shaped atlas_finite Hl Hsig)
    as [x [Ex [Hlx Hx]]].
  unfold log_likelihood_sequencing_perfect. rewrite Ex. cbn [bind].
  rewrite broadcast3_same by congruence. cbn [bind].
  eexists. split; [reflexivity|].
  apply np_sum_finite_or_neginf.
  apply (zip_with3_Forall counts unit_interval); auto.
Qed.

Lemma with_errors_likelihood_defined :
  forall sigma,
    length sigma = K atlas -> Forall finite sigma ->
    exists l,
      log_likelihood_sequencing_with_errors logpmf ln atlas sigma sample
                                            p01 p11
      = Ok l /\ finite_or_neginf l.
Proof.
  intros sigma Hl Hsig. destruct sample_counts as [Hm [Ht Hc]].
  destruct (clipped_x_unit_interval _ _ atlas_shaped atlas_finite Hl Hsig)
    as [x [Ex [Hlx Hx]]].
  unfold log_likelihood_sequencing_with_errors. rewrite Ex. cbn [bind].
  rewrite call_probability_map. cbn [bind].
  rewrite broadcast3_same by (rewrite ?length_map; congruence). cbn [bind].
  rewrite (comprehension_counts _ _ _ Hc). cbn [bind].
  eexists. split; [reflexivity|].
  apply finite_or_neginf_fsub.
  - apply np_sum_finite_or_neginf.
    apply (zip_with3_Forall counts unit_interval); auto.
    apply Forall_map. revert Hx. apply Forall_impl. intros xi Hxi.
    destruct (truthy p11).
    + apply mix_unit_interval; assumption.
    + apply mix_unit_interval; auto using complement_unit_interval.
  - apply np_sum_finite. apply Forall_map, Forall_forall.
    intros i _. exact I.
Qed.

(** The objective of either driver is a number, finite or [inf], at
    every finite vector of [K] entries. *)
Lemma objective_is_a_number :
  forall l sigma,
    length sigma = K atlas -> Forall finite sigma ->
    exists fx,
      objective logpmf ln l atlas sample p01 p11 sigma = Ok fx /\
      is_nan fx = false.
Proof.
  intros l sigma Hl Hsig. unfold objective, neg_ll.
  destruct l.
  - destruct (perfect_likelihood_defined sigma Hl Hsig) as [v [E Hv]].
    rewrite E. cbn [bind]. eexists. split; [reflexivity|].
    destruct v; simpl in Hv; try contradiction; reflexivity.
  - destruct (with_errors_likelihood_defined sigma Hl Hsig) as [v [E Hv]].
    rewrite E. cbn [bind]. eexists. split; [reflexivity|].
    destruct v; simpl in Hv; try contradiction; reflexivity.
Qed.

(** When [minimize] reports the objective at a finite solution of [K]
    entries, no trial reports [nan]. *)
Lemma valid_inputs_report_numbers :
  forall dirichlet_rvs minimize l,
    (forall init r,
       trial minimize (objective logpmf ln l atlas sample p01 p11)
             (K atlas) init = Ok r ->
       length (opt_x r) = K atlas /\ Forall finite (opt_x r) /\
       objective logpmf ln l atlas sample p01 p11 (opt_x r) = Ok (opt_fun r)) ->
    trials_report_numbers dirichlet_rvs minimize
      (objective logpmf ln l atlas sample p01 p11) (K atlas).
Proof.
  intros dirichlet_rvs minimize l Hrep init r _ Hcall.
  destruct (Hrep init r Hcall) as [Hl [Hf E]].
  destruct (objective_is_a_number l (opt_x r) Hl Hf) as [fx [E' Hfx]].
  congruence.
Qed.

End DefinedLikelihoods.

(** ** C5: clipping keeps the likelihoods defined *)

(** C5.  Both likelihoods clip [x = A . sigma] into [[0,1]] before the
    binomial probability is evaluated.  For a finite atlas matrix with
    [K] columns, any finite mixture vector of [K] entries (whatever its
    entries sum to), valid counts and rates within [[0,1]], neither
    likelihood raises, and each returns a finite number or [-inf]. *)
Theorem likelihoods_are_defined_off_the_simplex :
  forall logpmf ln atlas sigma sample p01 p11,
    logpmf_in_range logpmf ->
    shaped atlas -> Forall (Forall finite) (A atlas) ->
    length sigma = K atlas -> Forall finite sigma ->
    valid_counts (length (A atlas)) sample ->
    unit_interval p01 -> unit_interval p11 ->
    (exists x, clipped_x atlas sigma = Ok x /\ Forall unit_interval x) /\
    (exists l,
       log_likelihood_sequencing_perfect logpmf atlas sigma sample p01 p11
       = Ok l /\ finite_or_neginf l) /\
    (exists l,
       log_likelihood_sequencing_with_errors logpmf ln atlas sigma sample
                                             p01 p11
       = Ok l /\ finite_or_neginf l).
Proof.
  intros logpmf ln atlas sigma sample p01 p11 Hpmf Hs Hf Hl Hsig Hc H01 H11.
  split; [|split].
  - destruct (clipped_x_unit_interval _ _ Hs Hf Hl Hsig) as [x [Ex [_ Hx]]].
    eauto.
  - exact (perfect_likelihood_defined logpmf atlas sample p01 p11
             Hpmf Hs Hf Hc sigma Hl Hsig).
  - exact (with_errors_likelihood_defined logpmf ln atlas sample p01 p11
             Hpmf Hs Hf Hc H01 H11 sigma Hl Hsig).
Qed.

Lemma example_logpmf_in_range : logpmf_in_range Example.logpmf.
Proof.
  intros k n p [a [b [-> [-> Hab]]]] Hp.
  destruct p as [| |q|]; simpl in Hp; try contradiction.
  unfold Example.logpmf, of_nat, of_Z.
  destruct Hp as [H0 H1].
  apply Qle_bool_iff in H0. apply Qle_bool_iff in H1. rewrite H0, H1.
  cbn [andb negb].
  repeat match goal with
         | |- context [if ?c then _ else _] => destruct c
         end; simpl; exact I.
Qed.

Lemma example_counts : valid_counts 3 Example.sample.
Proof.
  repeat split; try reflexivity.
  repeat constructor;
    [exists 9%nat, 10%nat | exists 1%nat, 10%nat | exists 5%nat, 10%nat];
    repeat split; lia.
Qed.

Lemma example_atlas_finite : Forall (Forall finite) (A Example.atlas).
Proof. repeat constructor. Qed.

Lemma likelihoods_are_defined_off_the_simplex_witness :
  (exists x, clipped_x Example.atlas [Fin 2; Fin 3] = Ok x /\
             Forall unit_interval x) /\
  (exists l,
     log_likelihood_sequencing_perfect
       Example.logpmf Example.atlas [Fin 2; Fin 3] Example.sample
       (Fin (5 # 100)) (Fin (95 # 100)) = Ok l /\ finite_or_neginf l) /\
  (exists l,
     log_likelihood_sequencing_with_errors
       Example.logpmf Example.ln Example.atlas [Fin 2; Fin 3] Example.sample
       (Fin (5 # 100)) (Fin (95 # 100)) = Ok l /\ finite_or_neginf l).
Proof.
  apply likelihoods_are_defined_off_the_simplex.
  - exact example_logpmf_in_range.
  - repeat constructor.
  - exact example_atlas_finite.
  - reflexivity.
  - repeat constructor.
  - exact example_counts.
  - simpl. lra.
  - simpl. lra.
Defined.

(** ** The order on floats *)

Lemma fltb_fleb : forall x y, (x <? y)%float = true -> (x <=? y)%float = true.
Proof.
  intros [| |a|] [| |b|]; simpl; auto.
  destruct (a ?= b) eqn:E; try discriminate. intros _.
  apply Qle_bool_iff. apply Qlt_alt in E. lra.
Qed.

Lemma fltb_false_fleb :
  forall x y,
    is_nan x = false -> is_nan y = false ->
    (x <? y)%float = false -> (y <=? x)%float = true.
Proof.
  intros [| |a|] [| |b|]; simpl; auto; try discriminate.
  intros _ _. destruct (a ?= b) eqn:E; try discriminate; intros _;
    apply Qle_bool_iff.
  - apply Qeq_alt in E. lra.
  - apply Qgt_alt in E. lra.
Qed.

Lemma fltb_fleb_trans :
  forall x y z,
    (x <? y)%float = true -> (y <=? z)%float = true -> (x <=? z)%float = true.
Proof.
  intros [| |a|] [| |b|] [| |c|]; simpl; auto; try discriminate.
  destruct (a ?= b) eqn:E; try discriminate. intros _ H.
  apply Qle_bool_iff in H. apply Qle_bool_iff. apply Qlt_alt in E. lra.
Qed.

Lemma fleb_refl : forall x, is_nan x = false -> (x <=? x)%float = true.
Proof.
  intros [| |a|]; simpl; auto. intros _. apply Qle_bool_iff. lra.
Qed.

Lemma fltb_not_nan : forall x y, (x <? y)%float = true -> is_nan x = false.
Proof. intros [| |a|] y; simpl; auto. Qed.

Lemma fltb_improves : forall x y, (x <? y)%float = true -> (x <? PInf)%float = true.
Proof. intros [| |a|] [| |b|]; simpl; auto. Qed.

Lemma fleb_PInf : forall x, is_nan x = false -> (x <=? PInf)%float = true.
Proof. intros [| |a|]; simpl; auto. Qed.

Lemma not_improving :
  forall x, (x <? PInf)%float = false -> x = PInf \/ x = NaN.
Proof. intros [| |a|]; simpl; auto; discriminate. Qed.

(** ** The multi-start loop *)

Lemma selected_start : selected [] (PInf, None).
Proof. unfold selected. simpl. split; [reflexivity | constructor]. Qed.

Lemma selected_step :
  forall seen st r,
    selected seen st -> selected (seen ++ [r]) (keep_better st r).
Proof.
  intros seen [best_ll [b|]] r; unfold selected, keep_better; simpl.
  - intros [-> [Hin [Himp Hmin]]].
    destruct (opt_fun r <? opt_fun b)%float eqn:E; simpl.
    + repeat split.
      * apply in_or_app. right. left. reflexivity.
      * exact (fltb_improves _ _ E).
      * intros r' Hr' Hnan. apply in_app_or in Hr'.
        destruct Hr' as [Hr'|[<-|[]]].
        -- exact (fltb_fleb_trans _ _ _ E (Hmin r' Hr' Hnan)).
        -- apply fleb_refl. exact Hnan.
    + repeat split; auto.
      * apply in_or_app. left. exact Hin.
      * intros r' Hr' Hnan. apply in_app_or in Hr'.
        destruct Hr' as [Hr'|[<-|[]]]; auto.
        apply fltb_false_fleb; auto.
        exact (fltb_not_nan _ _ Himp).
  - intros [-> Hnone].
    destruct (opt_fun r <? PInf)%float eqn:E; simpl.
    + repeat split.
      * apply in_or_app. right. left. reflexivity.
      * exact E.
      * intros r' Hr' Hnan. apply in_app_or in Hr'.
        destruct Hr' as [Hr'|[<-|[]]].
        -- rewrite Forall_forall in Hnone. specialize (Hnone r' Hr').
           unfold improves in Hnone.
           destruct (not_improving (opt_fun r')) as [H|H].
           ++ destruct (opt_fun r' <? PInf)%float; congruence.
           ++ rewrite H. apply fleb_PInf. exact (fltb_not_nan _ _ E).
           ++ rewrite H in Hnan. discriminate.
        -- apply fleb_refl. exact Hnan.
    + split; auto. apply Forall_app. split; auto.
      constructor; auto. unfold improves. congruence.
Qed.

Lemma selected_fold :
  forall rs seen st,
    selected seen st -> selected (seen ++ rs) (fold_left keep_better rs st).
Proof.
  induction rs as [|r rs IH]; intros seen st H; simpl.
  - rewrite app_nil_r. exact H.
  - replace (seen ++ r :: rs) with ((seen ++ [r]) ++ rs)
      by (rewrite <- app_assoc; reflexivity).
    apply IH, selected_step, H.
Qed.

Section Loop.

Variable minimize :
  (vec -> result float) -> vec -> string -> nat -> list (float * float) ->
  (vec -> float) -> result OptimizeResult.
Variable f : vec -> result float.
Variable bnds : list (float * float).
Variable cons : vec -> float.

Let call (init : vec) : result OptimizeResult :=
  minimize f init "SLSQP" 100%nat bnds cons.

(** The loop returns exactly when every call to [minimize] does, and then
    it has folded [keep_better] over the results in order. *)
Lemma trials_sound :
  forall inits st st',
    trials minimize f bnds cons inits st = Ok st' ->
    exists rs,
      Forall2 (fun init r => call init = Ok r) inits rs /\
      st' = fold_left keep_better rs st.
Proof.
  induction inits as [|init inits IH]; intros st st' H; simpl in H.
  - injection H as <-. exists []. split; [constructor | reflexivity].
  - fold (call init) in H. destruct (call init) as [r|e] eqn:E; simpl in H.
    + destruct (IH _ _ H) as [rs [Hrs ->]].
      exists (r :: rs). split; [constructor; assumption | reflexivity].
    + discriminate.
Qed.

Lemma trials_complete :
  forall inits rs st,
    Forall2 (fun init r => call init = Ok r) inits rs ->
    trials minimize f bnds cons inits st = Ok (fold_left keep_better rs st).
Proof.
  intros inits rs st H. revert st.
  induction H as [|init r inits rs E H IH]; intros st; simpl.
  - reflexivity.
  - fold (call init). rewrite E. simpl. apply IH.
Qed.

End Loop.


Section MultiStartDrivers.

Variable logpmf : float -> float -> float -> float.
Variable ln : Z -> Q.
Variable dirichlet_rvs : vec -> nat -> list vec.
Variable minimize :
  (vec -> result float) -> vec -> string -> nat -> list (float * float) ->
  (vec -> float) -> result OptimizeResult.

(** The four drivers share their multi-start branch. *)
Lemma fit_ll_unfold :
  forall l atlas sample p01 p11,
    fit_ll logpmf ln dirichlet_rvs minimize l atlas sample p01 p11 =
    (alpha <- uniform_vector (K atlas) ;;
     st <- trials minimize (objective logpmf ln l atlas sample p01 p11)
                  (repeat (zero, one) (K atlas)) eq_constraint
                  (dirichlet_rvs alpha 10) (PInf, None) ;;
     best_solution st).
Proof. intros [|] atlas sample p01 p11; reflexivity. Qed.

Lemma script_fit_ll_unfold :
  forall l atlas sample p01 p11,
    script_fit_ll logpmf ln dirichlet_rvs minimize l atlas sample p01 p11 true =
    fit_ll logpmf ln dirichlet_rvs minimize l atlas sample p01 p11.
Proof. intros [|] atlas sample p01 p11; reflexivity. Qed.

Lemma uniform_vector_Ok :
  forall k alpha,
    uniform_vector k = Ok alpha ->
    k <> 0%nat /\ alpha = repeat (one / of_nat k)%float k.
Proof.
  intros k alpha. unfold uniform_vector.
  destruct (Nat.eqb_spec k 0); intros H; [discriminate|].
  injection H as <-. auto.
Qed.


End MultiStartDrivers.

(** ** C3: the multi-start search keeps the best of ten trials *)




(** ** C6 (defect): no trial beats the initial objective *)

Section NoImprovement.

Variable logpmf : float -> float -> float -> float.
Variable ln : Z -> Q.
Variable dirichlet_rvs : vec -> nat -> list vec.
Variable minimize :
  (vec -> result float) -> vec -> string -> nat -> list (float * float) ->
  (vec -> float) -> result OptimizeResult.

(** When every trial returns and none has an objective below [np.inf],
    [best_sol] is still [None] at the end of the loop and its
    dereference raises [AttributeError]. *)
Lemma no_improvement_raises_AttributeError :
  forall l atlas sample p01 p11 rs,
    K atlas <> 0%nat ->
    Forall2 (fun init r =>
               trial minimize (objective logpmf ln l atlas sample p01 p11)
                     (K atlas) init = Ok r)
            (starts dirichlet_rvs (K atlas)) rs ->
    Forall (fun r => ~ improves r) rs ->
    fit_ll logpmf ln dirichlet_rvs minimize l atlas sample p01 p11
    = Err AttributeError /\
    script_fit_ll logpmf ln dirichlet_rvs minimize l atlas sample p01 p11 true
    = Err AttributeError.
Proof.
  intros l atlas sample p01 p11 rs HK Hrs Hnone.
  rewrite script_fit_ll_unfold.
  assert (E : fit_ll logpmf ln dirichlet_rvs minimize l atlas sample p01 p11
              = Err AttributeError); [|split; exact E].
  rewrite fit_ll_unfold. unfold uniform_vector.
  destruct (Nat.eqb_spec (K atlas) 0) as [E0|_]; [contradiction|].
  cbn [bind]. unfold starts, trial in Hrs.
  rewrite (trials_complete _ _ _ _ _ _ (PInf, None) Hrs). cbn [bind].
  pose proof (selected_fold rs [] _ selected_start) as Hsel.
  simpl app in Hsel. unfold best_solution.
  destruct (fold_left keep_better rs (PInf, None)) as [best_ll [b|]];
    [|reflexivity].
  unfold selected in Hsel. simpl in Hsel.
  destruct Hsel as [_ [Hin [Himp _]]].
  rewrite Forall_forall in Hnone. exfalso. exact (Hnone b Hin Himp).
Qed.

End NoImprovement.

(** C6, at a failing input.  One site whose atlas rate is zero for the
    only cell type, one methylated call there: the perfect-calling
    likelihood is [-inf] at every mixture vector, every trial reports the
    objective [inf], and [fit_llsp] ends in Python's [AttributeError] for
    [None.x]; the code has no error of its own for this case. *)
Theorem dark_site_ends_in_AttributeError :
  fit_llsp Example.logpmf Example.dirichlet_rvs Example.minimize
           Example.dark_atlas Example.lit_sample zero one
  = Err AttributeError /\
  fit_llse Example.logpmf Example.ln Example.dirichlet_rvs Example.minimize
           Example.dark_atlas Example.lit_sample zero one
  = Err AttributeError /\
  Forall (fun init =>
            exists r,
              trial Example.minimize
                    (objective Example.logpmf Example.ln Perfect
                               Example.dark_atlas Example.lit_sample zero one)
                    1 init = Ok r /\ opt_fun r = PInf)
         (starts Example.dirichlet_rvs 1).
Proof.
  split; [reflexivity|]. split; [reflexivity|].
  vm_compute starts.
  repeat constructor; eexists; split; reflexivity.
Qed.

(** ** C4: non-negative least squares reads [A] and [x_hat] only *)

Lemma Qcompare_0_scale :
  forall c b, 0 < c -> (Qred (c * b) ?= 0) = (b ?= 0).
Proof.
  intros c b Hc.
  destruct (Qcompare_spec (Qred (c * b)) 0) as [H|H|H];
    rewrite Qred_correct in H;
    destruct (Qcompare_spec b 0) as [H'|H'|H']; try reflexivity;
    exfalso; nra.
Qed.

Lemma Qeq_bool_0_scale :
  forall c b, 0 < c -> Qeq_bool (Qred (c * b)) 0 = Qeq_bool b 0.
Proof.
  intros c b Hc.
  destruct (Qeq_bool b 0) eqn:E.
  - apply Qeq_bool_iff in E. apply Qeq_bool_iff.
    rewrite Qred_correct, E. ring.
  - apply Qeq_bool_neq in E.
    destruct (Qeq_bool (Qred (c * b)) 0) eqn:E'; [|reflexivity].
    apply Qeq_bool_iff in E'. rewrite Qred_correct in E'.
    exfalso. apply E. nra.
Qed.

Lemma scale_PInf : forall c, 0 < c -> (Fin c * PInf)%float = PInf.
Proof.
  intros c Hc. simpl. unfold scale_inf.
  destruct (Qcompare_spec c 0) as [H|H|H]; try reflexivity; exfalso; lra.
Qed.

Lemma scale_NInf : forall c, 0 < c -> (Fin c * NInf)%float = NInf.
Proof.
  intros c Hc. simpl. unfold scale_inf.
  destruct (Qcompare_spec c 0) as [H|H|H]; try reflexivity; exfalso; lra.
Qed.

(** A quotient does not change when both sides are multiplied by the same
    positive factor. *)
Lemma fdiv_rescale :
  forall c a b, 0 < c -> (Fin c * a / (Fin c * b))%float = (a / b)%float.
Proof.
  intros c a b Hc.
  destruct a as [| |a|]; destruct b as [| |b|];
    rewrite ?(scale_PInf c Hc), ?(scale_NInf c Hc); try reflexivity;
    cbn [fmul fin fdiv];
    rewrite ?(Qeq_bool_0_scale c _ Hc), ?(Qcompare_0_scale c _ Hc);
    try reflexivity.
  destruct (Qeq_bool b 0) eqn:E; [reflexivity|].
  apply Qeq_bool_neq in E. unfold fin. f_equal. apply Qred_complete.
  rewrite !Qred_correct. field. split; [exact E | lra].
Qed.

Lemma expand_map :
  forall (g : float -> float) (u : vec) n,
    g NaN = NaN -> expand (map g u) n = map g (expand u n).
Proof.
  intros g u n Hg. unfold expand. rewrite length_map.
  destruct (Nat.eqb (length u) n); [reflexivity|].
  rewrite map_repeat. f_equal. destruct u; simpl; auto.
Qed.

Lemma zip_with_fdiv_rescale :
  forall c a b,
    0 < c ->
    zip_with fdiv (map (fmul (Fin c)) a) (map (fmul (Fin c)) b) =
    zip_with fdiv a b.
Proof.
  intros c a. induction a as [|x a IH]; intros [|y b] Hc; simpl; auto.
  f_equal; [exact (fdiv_rescale c x y Hc) | exact (IH b Hc)].
Qed.

Lemma x_hat_rescale :
  forall c m0 t0,
    0 < c ->
    broadcast2 fdiv (rescale c m0) (rescale c t0) = broadcast2 fdiv m0 t0.
Proof.
  intros c m0 t0 Hc. unfold broadcast2, rescale. rewrite !length_map.
  destruct (bshape (length m0) (length t0)) as [n|]; [|reflexivity].
  rewrite !expand_map by reflexivity.
  rewrite (zip_with_fdiv_rescale c _ _ Hc). reflexivity.
Qed.

Lemma fit_nnls_reads_x_hat :
  forall nnls atlas s s',
    x_hat s' = x_hat s -> fit_nnls nnls atlas s' = fit_nnls nnls atlas s.
Proof. intros nnls atlas s s' H. unfold fit_nnls. rewrite H. reflexivity. Qed.

Lemma np_append_rows_shaped :
  forall atlas,
    shaped atlas ->
    np_append_rows (A atlas) [repeat one (K atlas)] =
    Ok (A atlas ++ [repeat one (K atlas)]).
Proof.
  intros atlas Hs. unfold np_append_rows.
  replace (forallb _ (A atlas)) with true; [reflexivity|].
  symmetry. apply forallb_forall. intros r Hr.
  unfold shaped in Hs. rewrite Forall_forall in Hs.
  simpl. rewrite (Hs r Hr), repeat_length. apply Nat.eqb_refl.
Qed.

(** C4.  [fit_nnls] reads a sample through [x_hat] alone, so two
    samples with the same [x_hat] get the same vector.  Multiplying all
    of [m] and [t] by one positive factor leaves [x_hat = m/t], and with
    it the vector [fit_nnls] returns, unchanged when the float32 products
    are exact (whole counts and a whole factor with products up to
    [2^24], for instance): the arrays are float32, and a product that is
    rounded changes the quotient. *)
Theorem nnls_reads_x_hat_only :
  forall nnls atlas name m0 t0 c,
    0 < c ->
    exact32 c m0 ->
    exact32 c t0 ->
    (forall s s',
       make_sample name m0 t0 = Ok s ->
       make_sample name (rescale32 c m0) (rescale32 c t0) = Ok s' ->
       x_hat s' = x_hat s /\
       fit_nnls nnls atlas s' = fit_nnls nnls atlas s) /\
    (returns (make_sample name (rescale32 c m0) (rescale32 c t0)) <->
     returns (make_sample name m0 t0)) /\
    (forall s1 s2,
       x_hat s2 = x_hat s1 ->
       fit_nnls nnls atlas s2 = fit_nnls nnls atlas s1).
Proof.
  intros nnls atlas name m0 t0 c Hc Hm Ht.
  unfold exact32 in Hm, Ht. rewrite Hm, Ht.
  pose proof (x_hat_rescale c m0 t0 Hc) as E.
  split; [|split].
  - intros s s' Hs Hs'.
    assert (Ex : x_hat s' = x_hat s).
    { unfold make_sample in Hs, Hs'. rewrite E in Hs'.
      destruct (broadcast2 fdiv m0 t0); simpl in Hs, Hs'; [|discriminate].
      injection Hs as <-. injection Hs' as <-. reflexivity. }
    split; [exact Ex | exact (fit_nnls_reads_x_hat _ _ _ _ Ex)].
  - unfold make_sample. rewrite E.
    destruct (broadcast2 fdiv m0 t0); simpl; tauto.
  - intros s1 s2 Ex. exact (fit_nnls_reads_x_hat _ _ _ _ Ex).
Qed.

Lemma nnls_reads_x_hat_only_witness :
  (forall s s',
     make_sample "s" (m Example.sample) (t Example.sample) = Ok s ->
     make_sample "s" (rescale32 5 (m Example.sample))
                 (rescale32 5 (t Example.sample)) = Ok s' ->
     x_hat s' = x_hat s /\
     fit_nnls Example.nnls Example.atlas s' =
     fit_nnls Example.nnls Example.atlas s) /\
  (returns (make_sample "s" (rescale32 5 (m Example.sample))
                        (rescale32 5 (t Example.sample))) <->
   returns (make_sample "s" (m Example.sample) (t Example.sample))) /\
  (forall s1 s2,
     x_hat s2 = x_hat s1 ->
     fit_nnls Example.nnls Example.atlas s2 =
     fit_nnls Example.nnls Example.atlas s1).
Proof.
  apply (nnls_reads_x_hat_only
           Example.nnls Example.atlas "s" (m Example.sample)
           (t Example.sample) 5).
  - reflexivity.
  - vm_compute. reflexivity.
  - vm_compute. reflexivity.
Defined.

(** C4, counterexample.  The claim as stated fails for a factor whose
    products leave the
    whole numbers float32 holds.  With [m = [3,4,1]], [t = [7,7,2]] and
    the factor [5592407], the products [3c] and [7c] are rounded (to
    [16777220] and [39146848]), [x_hat] changes at the first two sites,
    and the vector [fit_nnls] returns changes with it; the stand-in
    solver's answers solve both systems with residual zero. *)
Lemma large_factor_changes_nnls :
  exists s s' sigma sigma',
    make_sample "s" Edge.sevenths_m Edge.sevenths_t = Ok s /\
    make_sample "s" (rescale32 Edge.large_factor Edge.sevenths_m)
                (rescale32 Edge.large_factor Edge.sevenths_t) = Ok s' /\
    m s' = [of_Z 16777220; of_Z 22369628; of_Z 5592407] /\
    t s' = [of_Z 39146848; of_Z 39146848; of_Z 11184814] /\
    x_hat s' <> x_hat s /\
    fit_nnls Example.nnls Example.atlas s = Ok sigma /\
    fit_nnls Example.nnls Example.atlas s' = Ok sigma' /\
    sigma' <> sigma /\
    residual2 (A Example.atlas ++ [repeat one (K Example.atlas)])
              (x_hat s ++ [one]) sigma = zero /\
    residual2 (A Example.atlas ++ [repeat one (K Example.atlas)])
              (x_hat s' ++ [one]) sigma' = zero.
Proof.
  do 4 eexists.
  split; [vm_compute; reflexivity|].
  split; [vm_compute; reflexivity|].
  split; [reflexivity|]. split; [reflexivity|].
  split; [vm_compute; discriminate|].
  split; [vm_compute; reflexivity|].
  split; [vm_compute; reflexivity|].
  split; [vm_compute; discriminate|].
  split; vm_compute; reflexivity.
Qed.

(** ** Sums of finite vectors *)

Lemma Qred_Qred : forall q, Qred (Qred q) = Qred q.
Proof. intros q. apply Qred_complete, Qred_correct. Qed.

Lemma fold_fadd_total :
  forall u a,
    Forall finite u ->
    exists q,
      fold_left fadd u (Fin a) = Fin q /\
      q == a + total u /\
      (u <> [] -> Qred q = q).
Proof.
  induction u as [|x u IH]; intros a Hu; simpl.
  - exists a. repeat split; [lra | congruence].
  - inversion Hu as [|x' u' Hx Hu']; subst.
    destruct x as [| |b|]; simpl in Hx; try contradiction.
    cbn [fadd fin].
    destruct (IH (Qred (a + b)) Hu') as [q [E [Hq Hc]]].
    exists q. split; [exact E|]. split.
    + rewrite Hq, Qred_correct. simpl. lra.
    + intros _. destruct u as [|y u].
      * assert (Eq : q = Qred (a + b)) by (cbn [fold_left] in E; congruence).
        rewrite Eq. apply Qred_Qred.
      * apply Hc. discriminate.
Qed.

Lemma np_sum_total :
  forall u,
    Forall finite u ->
    exists q, np_sum u = Fin q /\ q == total u /\ (u <> [] -> Qred q = q).
Proof.
  intros u Hu. destruct (fold_fadd_total u 0 Hu) as [q [E [Hq Hc]]].
  exists q. repeat split; auto. rewrite Hq. lra.
Qed.

Lemma nonneg_finite : forall x, nonneg x -> finite x.
Proof. intros [| |q|]; simpl; auto. Qed.

Lemma total_nonneg : forall u, Forall nonneg u -> 0 <= total u.
Proof.
  induction u as [|x u IH]; intros H; simpl.
  - lra.
  - inversion H; subst. destruct x as [| |q|]; simpl in *; try contradiction.
    specialize (IH H3). lra.
Qed.

Lemma total_cons : forall x u, total (x :: u) = value_of x + total u.
Proof. reflexivity. Qed.

(** ** Dividing by the sum *)



(** ** The uniform baseline *)



(** ** Feasible solutions have a positive sum *)


(** ** Least squares: the zero vector is never the solution *)



Lemma dot_value :
  forall r c,
    Forall finite (zip_with fmul r c) ->
    exists q, dot r c = Fin q /\ q == total (zip_with fmul r c).
Proof.
  intros r c H. unfold dot.
  destruct (np_sum_total _ H) as [q [E [Hq _]]]. eauto.
Qed.













(** ** What the drivers return *)


Lemma valid_pair_shaped :
  forall atlas sample, valid_pair atlas sample -> shaped atlas.
Proof.
  intros atlas sample [_ [HA _]]. unfold shaped.
  revert HA. apply Forall_impl. tauto.
Qed.



Section RawSolutions.

Variable logpmf : float -> float -> float -> float.
Variable ln : Z -> Q.
Variable dirichlet_rvs : vec -> nat -> list vec.
Variable minimize :
  (vec -> result float) -> vec -> string -> nat -> list (float * float) ->
  (vec -> float) -> result OptimizeResult.



Lemma script_fit_ll_single :
  forall l atlas sample p01 p11,
    script_fit_ll logpmf ln dirichlet_rvs minimize l atlas sample p01 p11 false =
    (alpha <- uniform_vector (K atlas) ;;
     res <- trial minimize (objective logpmf ln l atlas sample p01 p11)
                  (K atlas) alpha ;;
     Ok (normalize (opt_x res))).
Proof. intros [|] atlas sample p01 p11; reflexivity. Qed.



End RawSolutions.

(** ** C1: what the final division gives *)








(* ================================================================== *)
(** * Further properties *)
(* ================================================================== *)

(** ** Sample names *)

Lemma after_last_slash_free :
  forall s acc, occurs "/" s = false -> after_last_slash s acc = acc.
Proof.
  induction s as [|c s IH]; intros acc H; simpl in *.
  - reflexivity.
  - apply orb_false_iff in H. destruct H as [Hc Hs].
    rewrite Hc. apply IH. exact Hs.
Qed.

Lemma after_last_slash_app :
  forall d r acc,
    after_last_slash (d ++ String "/" r) acc = after_last_slash r r.
Proof.
  induction d as [|c d IH]; intros r acc; simpl.
  - reflexivity.
  - destruct (Ascii.eqb c "/"); apply IH.
Qed.

Lemma before_first_dot_app :
  forall b e, occurs "." b = false -> before_first_dot (b ++ String "." e) = b.
Proof.
  induction b as [|c b IH]; intros e H; simpl in *.
  - reflexivity.
  - apply orb_false_iff in H. destruct H as [Hc Hb].
    rewrite Hc. f_equal. apply IH. exact Hb.
Qed.

Lemma before_first_dot_free :
  forall b, occurs "." b = false -> before_first_dot b = b.
Proof.
  induction b as [|c b IH]; intros H; simpl in *.
  - reflexivity.
  - apply orb_false_iff in H. destruct H as [Hc Hb].
    rewrite Hc. f_equal. apply IH. exact Hb.
Qed.

Lemma occurs_app :
  forall c a b, occurs c (a ++ b) = occurs c a || occurs c b.
Proof.
  intros c a b. induction a as [|x a IH]; simpl.
  - reflexivity.
  - rewrite IH. apply orb_assoc.
Qed.

(** X1.  [get_sample_name] returns the base name of a path: for a file
    [base.ext] in any directory [dir] (dots in the directory do not
    matter), with no slash or dot in [base] and no slash in [ext], the
    name is [base]; the same without a directory, and without an
    extension. *)
Theorem get_sample_name_of_path :
  forall dir base ext,
    occurs "/" base = false -> occurs "." base = false ->
    occurs "/" ext = false ->
    get_sample_name (dir ++ String "/" (base ++ String "." ext)) = base /\
    get_sample_name (base ++ String "." ext) = base /\
    get_sample_name (dir ++ String "/" base) = base.
Proof.
  intros dir base ext Hs Hd He. unfold get_sample_name.
  assert (Hfree : occurs "/" (base ++ String "." ext) = false).
  { rewrite occurs_app, Hs. simpl. exact He. }
  repeat split.
  - rewrite after_last_slash_app, (after_last_slash_free _ _ Hfree).
    apply before_first_dot_app. exact Hd.
  - rewrite (after_last_slash_free _ _ Hfree).
    apply before_first_dot_app. exact Hd.
  - rewrite after_last_slash_app, (after_last_slash_free _ _ Hs).
    apply before_first_dot_free. exact Hd.
Qed.

Lemma get_sample_name_of_path_witness :
  get_sample_name ("data/run.1" ++ String "/" ("sample7" ++ String "." "5x.tsv"))
  = "sample7"%string /\
  get_sample_name ("sample7" ++ String "." "5x.tsv") = "sample7"%string /\
  get_sample_name ("data/run.1" ++ String "/" "sample7") = "sample7"%string.
Proof.
  apply get_sample_name_of_path; reflexivity.
Defined.

Lemma after_last_slash_no_slash :
  forall s acc,
    occurs "/" s = true \/ occurs "/" acc = false ->
    occurs "/" (after_last_slash s acc) = false.
Proof.
  induction s as [|c s IH]; intros acc H; simpl in *.
  - destruct H as [H|H]; [discriminate | exact H].
  - destruct (Ascii.eqb c "/") eqn:E; simpl in H.
    + apply IH. destruct (occurs "/" s) eqn:Es; auto.
    + apply IH. exact H.
Qed.

Lemma before_first_dot_no_dot :
  forall s, occurs "." (before_first_dot s) = false.
Proof.
  induction s as [|c s IH]; simpl.
  - reflexivity.
  - destruct (Ascii.eqb c ".") eqn:E; simpl.
    + reflexivity.
    + rewrite E. exact IH.
Qed.

Lemma before_first_dot_keeps :
  forall c s, occurs c s = false -> occurs c (before_first_dot s) = false.
Proof.
  intros c. induction s as [|x s IH]; intros H; simpl in *.
  - reflexivity.
  - apply orb_false_iff in H. destruct H as [Hx Hs].
    destruct (Ascii.eqb x "."); simpl.
    + reflexivity.
    + rewrite Hx. apply IH. exact Hs.
Qed.

(** X2.  Whatever the path, the sample name holds neither a slash nor a
    dot. *)
Theorem get_sample_name_is_plain :
  forall s,
    occurs "/" (get_sample_name s) = false /\
    occurs "." (get_sample_name s) = false.
Proof.
  intros s. unfold get_sample_name. split.
  - apply before_first_dot_keeps, after_last_slash_no_slash.
    destruct (occurs "/" s); auto.
  - apply before_first_dot_no_dot.
Qed.

(** ** Column names *)

Lemma rename_column_idempotent :
  forall k, rename_column (rename_column k) = rename_column k.
Proof.
  intros k.
  assert (E : rename_column k = "Chromosome"%string \/
              rename_column k = "Start"%string \/
              rename_column k = "End"%string \/ rename_column k = k).
  { unfold rename_column.
    destruct (String.eqb k "chromosome"); [auto|].
    destruct (String.eqb k "chr"); [auto|].
    destruct (String.eqb k "start"); [auto|].
    destruct (String.eqb k "end"); auto. }
  destruct E as [E|[E|[E|E]]]; rewrite !E; reflexivity.
Qed.

Lemma rename_column_not_alias :
  forall k,
    rename_column k <> "chromosome"%string /\
    rename_column k <> "chr"%string /\
    rename_column k <> "start"%string /\
    rename_column k <> "end"%string.
Proof.
  intros k. unfold rename_column.
  destruct (String.eqb_spec k "chromosome");
    [repeat split; discriminate|].
  destruct (String.eqb_spec k "chr"); [repeat split; discriminate|].
  destruct (String.eqb_spec k "start"); [repeat split; discriminate|].
  destruct (String.eqb_spec k "end"); [repeat split; discriminate|].
  repeat split; assumption.
Qed.

(** X3.  Renaming the coordinate columns is idempotent, keeps the number
    of rows and of columns, and leaves no column called [chromosome],
    [chr], [start] or [end]. *)
Theorem rename_normalises_coordinates :
  forall df,
    rename (rename df) = rename df /\
    nrows (rename df) = nrows df /\
    length (columns (rename df)) = length (columns df) /\
    forall k, In k (columns (rename df)) ->
              k <> "chromosome"%string /\ k <> "chr"%string /\
              k <> "start"%string /\ k <> "end"%string.
Proof.
  intros df. unfold rename, columns. simpl. repeat split.
  - f_equal. rewrite map_map. apply map_ext. intros [k c]. simpl.
    rewrite rename_column_idempotent. reflexivity.
  - rewrite !length_map. reflexivity.
  - rewrite map_map in H. apply in_map_iff in H.
    destruct H as [[k' c] [<- _]]. apply rename_column_not_alias.
  - rewrite map_map in H. apply in_map_iff in H.
    destruct H as [[k' c] [<- _]]. apply rename_column_not_alias.
  - rewrite map_map in H. apply in_map_iff in H.
    destruct H as [[k' c] [<- _]]. apply rename_column_not_alias.
  - rewrite map_map in H. apply in_map_iff in H.
    destruct H as [[k' c] [<- _]]. apply rename_column_not_alias.
Qed.

Lemma getattr_returns_iff :
  forall gr k, returns (getattr gr k) <-> In k (columns gr).
Proof.
  intros gr k. split.
  - unfold getattr, columns.
    induction (cols gr) as [|[k' c] cs IH]; simpl.
    + contradiction.
    + destruct (String.eqb_spec k k'); auto.
  - intros H. destruct (getattr_present gr k H) as [c E]. rewrite E. exact I.
Qed.

Lemma rename_column_Chromosome :
  forall k,
    rename_column k = "Chromosome"%string <->
    k = "chromosome"%string \/ k = "chr"%string \/ k = "Chromosome"%string.
Proof.
  intros k. unfold rename_column.
  destruct (String.eqb_spec k "chromosome"); [subst; intuition|].
  destruct (String.eqb_spec k "chr"); [subst; intuition|].
  destruct (String.eqb_spec k "start"); [subst; intuition discriminate|].
  destruct (String.eqb_spec k "end"); [subst; intuition discriminate|].
  intuition.
Qed.

Lemma rename_column_Start :
  forall k,
    rename_column k = "Start"%string <->
    k = "start"%string \/ k = "Start"%string.
Proof.
  intros k. unfold rename_column.
  destruct (String.eqb_spec k "chromosome"); [subst; intuition discriminate|].
  destruct (String.eqb_spec k "chr"); [subst; intuition discriminate|].
  destruct (String.eqb_spec k "start"); [subst; intuition|].
  destruct (String.eqb_spec k "end"); [subst; intuition discriminate|].
  intuition.
Qed.

Lemma rename_column_End :
  forall k,
    rename_column k = "End"%string <->
    k = "end"%string \/ k = "End"%string.
Proof.
  intros k. unfold rename_column.
  destruct (String.eqb_spec k "chromosome"); [subst; intuition discriminate|].
  destruct (String.eqb_spec k "chr"); [subst; intuition discriminate|].
  destruct (String.eqb_spec k "start"); [subst; intuition discriminate|].
  destruct (String.eqb_spec k "end"); [subst; intuition|].
  intuition.
Qed.

Lemma In_columns_rename :
  forall df k,
    In k (columns (rename df)) <->
    exists k', In k' (columns df) /\ rename_column k' = k.
Proof.
  intros df k. unfold rename, columns. simpl. rewrite map_map.
  rewrite in_map_iff. split.
  - intros [[k' c] [E H]]. exists k'. split; [|exact E].
    apply in_map_iff. exists (k', c). auto.
  - intros [k' [H E]]. apply in_map_iff in H. destruct H as [[k'' c] [E' H]].
    simpl in E'. subst k''. exists (k', c). auto.
Qed.

(** X4.  After the renaming a table exposes [gr.Chromosome] exactly when
    it had a column [chromosome], [chr] or [Chromosome], [gr.Start]
    exactly when it had [start] or [Start], and [gr.End] exactly when it
    had [end] or [End]. *)
Theorem rename_exposes_coordinates :
  forall df,
    (returns (getattr (rename df) "Chromosome") <->
     In "chromosome"%string (columns df) \/ In "chr"%string (columns df) \/
     In "Chromosome"%string (columns df)) /\
    (returns (getattr (rename df) "Start") <->
     In "start"%string (columns df) \/ In "Start"%string (columns df)) /\
    (returns (getattr (rename df) "End") <->
     In "end"%string (columns df) \/ In "End"%string (columns df)).
Proof.
  intros df. rewrite !getattr_returns_iff, !In_columns_rename.
  split; [|split].
  - split.
    + intros [k [H E]]. apply rename_column_Chromosome in E.
      destruct E as [-> | [-> | ->]]; auto.
    + intros [H|[H|H]]; eexists; (split; [exact H | reflexivity]).
  - split.
    + intros [k [H E]]. apply rename_column_Start in E.
      destruct E as [-> | ->]; auto.
    + intros [H|H]; eexists; (split; [exact H | reflexivity]).
  - split.
    + intros [k [H E]]. apply rename_column_End in E.
      destruct E as [-> | ->]; auto.
    + intros [H|H]; eexists; (split; [exact H | reflexivity]).
Qed.

(** ** The atlas a table gives *)

Lemma mem_In : forall k ks, mem k ks = true <-> In k ks.
Proof.
  intros k ks. unfold mem. rewrite existsb_exists. split.
  - intros [x [Hx E]]. apply String.eqb_eq in E. subst. exact Hx.
  - intros H. exists k. split; [exact H | apply String.eqb_refl].
Qed.

Lemma cell_types_of_spec :
  forall gr,
    NoDup (cell_types_of gr) /\
    forall k, In k (cell_types_of gr) <->
              In k (columns gr) /\ ~ In k reserved.
Proof.
  intros gr. unfold cell_types_of. split.
  - apply NoDup_filter, NoDup_nodup.
  - intros k. rewrite filter_In, nodup_In, negb_true_iff.
    split; intros [H1 H2]; (split; [exact H1|]).
    + intros Hr. apply mem_In in Hr. congruence.
    + destruct (mem k reserved) eqn:E; [|reflexivity].
      apply mem_In in E. contradiction.
Qed.

Lemma ReferenceAtlas_init_Ok :
  forall gr atlas,
    ReferenceAtlas_init gr = Ok atlas ->
    exists chrom start end_,
      getattr gr "Chromosome" = Ok chrom /\
      getattr gr "Start" = Ok start /\
      getattr gr "End" = Ok end_ /\
      atlas = {| cpg_ids := zip3 chrom start end_;
                 K := length (cell_types_of gr);
                 v := map (fun k => (k, getitem gr k)) (cell_types_of gr);
                 A := loc gr (cell_types_of gr) |}.
Proof.
  intros gr atlas H. unfold ReferenceAtlas_init in H.
  destruct (getattr gr "Chromosome") as [chrom|e]; [|discriminate].
  destruct (getattr gr "Start") as [start|e]; [|discriminate].
  destruct (getattr gr "End") as [end_|e]; [|discriminate].
  cbn [bind] in H. injection H as <-. eauto 10.
Qed.

(** X6.  On an atlas the constructor returns, the accessors agree:
    [get_cell_types] lists the table's cell types, each once and none of
    them a reserved name, and [get_num_cell_types] equals [K]. *)
Theorem atlas_accessors_agree :
  forall gr atlas,
    ReferenceAtlas_init gr = Ok atlas ->
    get_cell_types atlas = cell_types_of gr /\
    get_num_cell_types atlas = K atlas /\
    NoDup (get_cell_types atlas) /\
    forall k, In k (get_cell_types atlas) ->
              In k (columns gr) /\ ~ In k reserved.
Proof.
  intros gr atlas H.
  destruct (ReferenceAtlas_init_Ok gr atlas H) as [c [s [e [_ [_ [_ ->]]]]]].
  unfold get_cell_types, get_num_cell_types. cbn [v K].
  rewrite map_map. cbn [fst]. rewrite map_id.
  destruct (cell_types_of_spec gr) as [Hn Hin].
  repeat split; try assumption; apply Hin; assumption.
Qed.

Lemma atlas_accessors_agree_witness :
  get_cell_types
    {| cpg_ids := [(VStr "chr1", VNum (of_Z 10), VNum (of_Z 11));
                   (VStr "chr1", VNum (of_Z 20), VNum (of_Z 21))];
       K := 2;
       v := [("a"%string, [VNum one; VNum zero]);
             ("b"%string, [VNum zero; VNum one])];
       A := [[one; zero]; [zero; one]] |}
  = cell_types_of Example.atlas_table /\
  get_num_cell_types
    {| cpg_ids := [(VStr "chr1", VNum (of_Z 10), VNum (of_Z 11));
                   (VStr "chr1", VNum (of_Z 20), VNum (of_Z 21))];
       K := 2;
       v := [("a"%string, [VNum one; VNum zero]);
             ("b"%string, [VNum zero; VNum one])];
       A := [[one; zero]; [zero; one]] |} = 2%nat /\
  NoDup ["a"%string; "b"%string] /\
  forall k, In k ["a"%string; "b"%string] ->
            In k (columns Example.atlas_table) /\ ~ In k reserved.
Proof.
  apply (atlas_accessors_agree Example.atlas_table). reflexivity.
Defined.

Lemma lookup_map_getitem :
  forall gr ks k,
    In k ks ->
    lookup k (map (fun k' => (k', getitem gr k')) ks) = Some (getitem gr k).
Proof.
  intros gr ks k. induction ks as [|k' ks IH]; intros H; simpl.
  - contradiction.
  - destruct (String.eqb_spec k k') as [->|N]; [reflexivity|].
    destruct H as [H|H]; [congruence | exact (IH H)].
Qed.

(** X7.  The matrix and the per-cell-type lists of an atlas hold the same
    numbers: the entry of [A] at row [i] and at the position of cell type
    [k] is the [i]-th entry of [v[k]]. *)
Theorem atlas_matrix_agrees_with_columns :
  forall gr atlas i j k,
    ReferenceAtlas_init gr = Ok atlas ->
    (i < nrows gr)%nat ->
    nth_error (get_cell_types atlas) j = Some k ->
    exists row col,
      nth_error (A atlas) i = Some row /\
      lookup k (v atlas) = Some col /\
      nth_error row j = Some (num_of (nth i col (VNum NaN))).
Proof.
  intros gr atlas i j k H Hi Hj.
  destruct (atlas_accessors_agree gr atlas H) as [Hct _].
  rewrite Hct in Hj.
  destruct (ReferenceAtlas_init_Ok gr atlas H) as [c [s [e [_ [_ [_ ->]]]]]].
  cbn [A v]. unfold loc.
  eexists. exists (getitem gr k). split; [|split].
  - rewrite nth_error_map, nth_error_seq.
    destruct (Nat.ltb_spec i (nrows gr)); [reflexivity | lia].
  - apply lookup_map_getitem. exact (nth_error_In _ _ Hj).
  - rewrite nth_error_map, Hj. reflexivity.
Qed.

Lemma atlas_matrix_agrees_with_columns_witness :
  exists row col,
    nth_error (A {| cpg_ids := [(VStr "chr1", VNum (of_Z 10), VNum (of_Z 11));
                                (VStr "chr1", VNum (of_Z 20), VNum (of_Z 21))];
                    K := 2;
                    v := [("a"%string, [VNum one; VNum zero]);
                          ("b"%string, [VNum zero; VNum one])];
                    A := [[one; zero]; [zero; one]] |}) 1 = Some row /\
    lookup "b" (v {| cpg_ids := [(VStr "chr1", VNum (of_Z 10), VNum (of_Z 11));
                                 (VStr "chr1", VNum (of_Z 20), VNum (of_Z 21))];
                     K := 2;
                     v := [("a"%string, [VNum one; VNum zero]);
                           ("b"%string, [VNum zero; VNum one])];
                     A := [[one; zero]; [zero; one]] |}) = Some col /\
    nth_error row 1 = Some (num_of (nth 1 col (VNum NaN))).
Proof.
  apply (atlas_matrix_agrees_with_columns Example.atlas_table _ 1 1 "b");
    [reflexivity | simpl; lia | reflexivity].
Defined.

Lemma length_zip3 :
  forall {X Y Z : Type} (a : list X) (b : list Y) (c : list Z) n,
    length a = n -> length b = n -> length c = n -> length (zip3 a b c) = n.
Proof.
  intros X Y Z a. induction a as [|x a IH]; intros [|y b] [|z c] n Ha Hb Hc;
    simpl in *; subst n; try discriminate; try reflexivity.
  f_equal. apply IH; congruence.
Qed.

(** X8.  For a table whose columns all have one cell per row, the atlas
    has one identifier per row and one matrix row per identifier:
    [get_num_cpgs] is the number of table rows and of rows of [A]. *)
Theorem atlas_rows_match_cpg_ids :
  forall gr atlas,
    rectangular gr ->
    ReferenceAtlas_init gr = Ok atlas ->
    get_num_cpgs atlas = nrows gr /\
    get_num_cpgs atlas = length (A atlas).
Proof.
  intros gr atlas Hrect H.
  destruct (ReferenceAtlas_init_Ok gr atlas H)
    as [c [s [e [Ec [Es [Ee ->]]]]]].
  unfold get_num_cpgs. cbn [cpg_ids A].
  assert (Hlen : forall k col, getattr gr k = Ok col -> length col = nrows gr).
  { intros k col E. unfold getattr in E.
    destruct (lookup k (cols gr)) as [col'|] eqn:El; [|discriminate].
    injection E as <-. exact (Hrect k col' El). }
  rewrite (length_zip3 c s e (nrows gr)) by eauto.
  destruct (loc_shape gr (cell_types_of gr)) as [Hn _].
  rewrite Hn. auto.
Qed.

Lemma atlas_rows_match_cpg_ids_witness :
  get_num_cpgs
    {| cpg_ids := [(VStr "chr1", VNum (of_Z 10), VNum (of_Z 11));
                   (VStr "chr1", VNum (of_Z 20), VNum (of_Z 21))];
       K := 2;
       v := [("a"%string, [VNum one; VNum zero]);
             ("b"%string, [VNum zero; VNum one])];
       A := [[one; zero]; [zero; one]] |} = nrows Example.atlas_table /\
  get_num_cpgs
    {| cpg_ids := [(VStr "chr1", VNum (of_Z 10), VNum (of_Z 11));
                   (VStr "chr1", VNum (of_Z 20), VNum (of_Z 21))];
       K := 2;
       v := [("a"%string, [VNum one; VNum zero]);
             ("b"%string, [VNum zero; VNum one])];
       A := [[one; zero]; [zero; one]] |} = 2%nat.
Proof.
  apply (atlas_rows_match_cpg_ids Example.atlas_table).
  - intros k c H. unfold Example.atlas_table, Example.coordinates in H.
    simpl in H.
    repeat match type of H with
           | (if ?b then _ else _) = _ =>
               destruct b; [injection H as <-; reflexivity|]
           end.
    discriminate.
  - reflexivity.
Defined.

(** ** The expected methylation on the simplex *)

Lemma weighted_total_bounds :
  forall r c,
    Forall unit_interval r -> Forall nonneg c ->
    Forall finite (zip_with fmul r c) /\
    0 <= total (zip_with fmul r c) <= total c.
Proof.
  induction r as [|a r IH]; intros [|e c] Hr Hc; cbn [zip_with].
  - split; [constructor | simpl; lra].
  - split; [constructor|]. pose proof (total_nonneg _ Hc). simpl in *. lra.
  - split; [constructor | simpl; lra].
  - inversion Hr as [|a' r' Ha Hr']; subst.
    inversion Hc as [|e' c' He Hc']; subst.
    destruct (IH c Hr' Hc') as [Hf Hb].
    destruct a as [| |a|]; simpl in Ha; try contradiction.
    destruct e as [| |e|]; simpl in He; try contradiction.
    cbn [fmul]. split.
    + constructor; [exact I | exact Hf].
    + rewrite !total_cons. unfold fin. cbn [value_of].
      rewrite Qred_correct. split; nra.
Qed.

Lemma simplex_total :
  forall sigma, simplex sigma -> Forall nonneg sigma /\ total sigma == 1.
Proof.
  intros sigma [Hn Hs]. split; [exact Hn|].
  assert (Hf : Forall finite sigma).
  { revert Hn. apply Forall_impl. exact nonneg_finite. }
  destruct (np_sum_total sigma Hf) as [q [E [Hq _]]].
  rewrite Hs in E. unfold one in E.
  assert (Eq : q = 1) by congruence.
  rewrite <- Hq, Eq. reflexivity.
Qed.

Lemma clip_identity :
  forall x, unit_interval x -> fmin (fmax x zero) one = x.
Proof.
  intros [| |q|] H; simpl in H; try contradiction.
  unfold fmax, fmin, zero, one. simpl.
  destruct (Qcompare_spec q 0) as [E|E|E]; try (exfalso; lra); simpl;
    destruct (Qcompare_spec 1 q) as [E'|E'|E']; try (exfalso; lra); reflexivity.
Qed.

Lemma dot_unit_interval :
  forall r sigma,
    Forall unit_interval r -> simplex sigma -> unit_interval (dot r sigma).
Proof.
  intros r sigma Hr Hs. destruct (simplex_total sigma Hs) as [Hn Ht].
  destruct (weighted_total_bounds r sigma Hr Hn) as [Hf Hb].
  destruct (dot_value r sigma Hf) as [q [E Hq]].
  rewrite E. simpl. rewrite Hq. lra.
Qed.

(** X9.  On an atlas of rates within [[0,1]] and a mixture vector on the
    simplex, [A . sigma] already lies within [[0,1]]: [get_x] returns one
    expected fraction per site, and the clipping inside the likelihoods
    changes nothing. *)
Theorem clipping_is_idle_on_the_simplex :
  forall atlas sigma,
    Forall (fun r => length r = K atlas /\ Forall unit_interval r) (A atlas) ->
    length sigma = K atlas ->
    simplex sigma ->
    exists x,
      (sigma_t <- reshape_col sigma (K atlas) ;; get_x atlas sigma_t) = Ok x /\
      clipped_x atlas sigma = Ok x /\
      length x = length (A atlas) /\
      Forall unit_interval x.
Proof.
  intros atlas sigma HA Hl Hs.
  assert (Hsh : shaped atlas).
  { unfold shaped. revert HA. apply Forall_impl. tauto. }
  assert (E : map (fun r => fmin (fmax (dot r sigma) zero) one) (A atlas)
              = map (fun r => dot r sigma) (A atlas)).
  { apply map_ext_in. intros r Hr. apply clip_identity.
    rewrite Forall_forall in HA. destruct (HA r Hr) as [_ Hu].
    exact (dot_unit_interval r sigma Hu Hs). }
  exists (map (fun r => dot r sigma) (A atlas)).
  split; [|split; [|split]].
  - unfold reshape_col. rewrite Hl, Nat.eqb_refl. cbn [bind].
    unfold get_x, np_matmul.
    replace (forallb (fun r => Nat.eqb (length r) (length sigma)) (A atlas))
      with true; [reflexivity|].
    symmetry. apply forallb_forall. intros r Hr.
    rewrite Forall_forall in HA. destruct (HA r Hr) as [Hlr _].
    rewrite Hlr, Hl. apply Nat.eqb_refl.
  - rewrite (clipped_x_shaped atlas sigma Hsh Hl), E. reflexivity.
  - apply length_map.
  - apply Forall_map. revert HA. apply Forall_impl. intros r [_ Hu].
    exact (dot_unit_interval r sigma Hu Hs).
Qed.

Lemma clipping_is_idle_on_the_simplex_witness :
  exists x,
    (sigma_t <- reshape_col [Fin (9 # 10); Fin (1 # 10)] (K Example.atlas) ;;
     get_x Example.atlas sigma_t) = Ok x /\
    clipped_x Example.atlas [Fin (9 # 10); Fin (1 # 10)] = Ok x /\
    length x = length (A Example.atlas) /\
    Forall unit_interval x.
Proof.
  apply clipping_is_idle_on_the_simplex.
  - repeat constructor; simpl; lra.
  - reflexivity.
  - split; [repeat constructor; simpl; lra | reflexivity].
Defined.

(** ** An atlas without cell types *)

(** X10.  A table with no cell-type column gives an atlas the drivers
    cannot divide by: the uniform driver and both likelihood drivers, in
    either file and either mode, raise [ZeroDivisionError] when they
    compute [1.0 / atlas.K], before any draw or minimisation. *)
Theorem no_cell_types_is_a_zero_division :
  forall logpmf ln dirichlet_rvs minimize gr atlas sample p01 p11 l random_inits,
    ReferenceAtlas_init gr = Ok atlas ->
    cell_types_of gr = [] ->
    fit_uniform atlas sample = Err ZeroDivisionError /\
    fit_ll logpmf ln dirichlet_rvs minimize l atlas sample p01 p11
    = Err ZeroDivisionError /\
    script_fit_ll logpmf ln dirichlet_rvs minimize l atlas sample p01 p11
                  random_inits = Err ZeroDivisionError.
Proof.
  intros logpmf ln dirichlet_rvs minimize gr atlas sample p01 p11 l
         random_inits H Hct.
  destruct (ReferenceAtlas_init_Ok gr atlas H) as [c [s [e [_ [_ [_ ->]]]]]].
  rewrite Hct.
  split; [reflexivity|]. split.
  - rewrite fit_ll_unfold. reflexivity.
  - destruct random_inits.
    + rewrite script_fit_ll_unfold, fit_ll_unfold. reflexivity.
    + rewrite script_fit_ll_single. reflexivity.
Qed.

Lemma no_cell_types_is_a_zero_division_witness :
  fit_uniform {| cpg_ids := [(VStr "chr1", VNum (of_Z 10), VNum (of_Z 11));
                             (VStr "chr1", VNum (of_Z 20), VNum (of_Z 21))];
                 K := 0; v := []; A := [[]; []] |} Example.sample
  = Err ZeroDivisionError /\
  fit_ll Example.logpmf Example.ln Example.dirichlet_rvs Example.minimize
         WithErrors
         {| cpg_ids := [(VStr "chr1", VNum (of_Z 10), VNum (of_Z 11));
                        (VStr "chr1", VNum (of_Z 20), VNum (of_Z 21))];
            K := 0; v := []; A := [[]; []] |} Example.sample zero one
  = Err ZeroDivisionError /\
  script_fit_ll Example.logpmf Example.ln Example.dirichlet_rvs
                Example.minimize WithErrors
                {| cpg_ids := [(VStr "chr1", VNum (of_Z 10), VNum (of_Z 11));
                               (VStr "chr1", VNum (of_Z 20), VNum (of_Z 21))];
                   K := 0; v := []; A := [[]; []] |} Example.sample zero one
                false
  = Err ZeroDivisionError.
Proof.
  apply (no_cell_types_is_a_zero_division
           Example.logpmf Example.ln Example.dirichlet_rvs Example.minimize
           Example.coordinates_only);
    reflexivity.
Defined.

(** ** Counts the binomial coefficient rejects *)

Lemma binomial_zero : forall n k, (n < k)%nat -> binomial n k = 0%nat.
Proof.
  induction n as [|n IH]; intros [|k] H; simpl; try lia.
  rewrite (IH k), (IH (S k)); lia.
Qed.

Lemma log_comb_overcounted :
  forall ln a b,
    (b < a)%nat -> log_comb ln (of_nat a) (of_nat b) = Err ValueError.
Proof.
  intros ln a b H. unfold log_comb. rewrite !py_int_of_nat. cbn [bind].
  unfold math_comb.
  destruct (Z.ltb_spec (Z.of_nat b) 0); [lia|].
  destruct (Z.ltb_spec (Z.of_nat a) 0); [lia|]. cbn [orb bind].
  rewrite !Nat2Z.id, (binomial_zero b a H). reflexivity.
Qed.

Lemma log_comb_whole :
  forall ln mi ti,
    whole mi ti ->
    log_comb ln mi ti = Err ValueError \/ exists y, log_comb ln mi ti = Ok y.
Proof.
  intros ln mi ti [a [b [-> ->]]].
  destruct (Nat.le_gt_cases a b) as [H|H].
  - right. eexists. apply log_comb_counts. exists a, b. auto.
  - left. apply log_comb_overcounted. exact H.
Qed.

Lemma comprehension_overcounted :
  forall ln ms ts,
    Forall2 whole ms ts ->
    Exists overcounted (combine ms ts) ->
    comprehension (fun mt => log_comb ln (fst mt) (snd mt)) (combine ms ts)
    = Err ValueError.
Proof.
  intros ln ms ts H. induction H as [|mi ti ms ts Hw H IH]; intros Hex;
    simpl in *.
  - inversion Hex.
  - destruct (log_comb_whole ln mi ti Hw) as [E|[y E]]; rewrite E; cbn [bind].
    + reflexivity.
    + inversion Hex as [x l Hbad|x l Hrest]; subst.
      * destruct Hbad as [a [b [Ha [Hb Hab]]]]. simpl in Ha, Hb. subst.
        rewrite (log_comb_overcounted ln a b Hab) in E. discriminate.
      * rewrite (IH Hrest). reflexivity.
Qed.

(** X11.  When some site has more methylated calls than calls
    ([m[i] > t[i]], all counts whole numbers), the sequencing-error
    likelihood raises [ValueError]: [math.comb] gives zero there and
    [math.log(0)] is a domain error.  The perfect-calling likelihood, on
    the same input, returns. *)
Theorem overcounted_site_raises_in_with_errors :
  forall logpmf ln atlas sigma sample p01 p11,
    shaped atlas ->
    length sigma = K atlas ->
    length (m sample) = length (A atlas) ->
    length (t sample) = length (A atlas) ->
    Forall2 whole (m sample) (t sample) ->
    Exists overcounted (combine (m sample) (t sample)) ->
    log_likelihood_sequencing_with_errors logpmf ln atlas sigma sample p01 p11
    = Err ValueError /\
    returns (log_likelihood_sequencing_perfect logpmf atlas sigma sample
                                               p01 p11).
Proof.
  intros logpmf ln atlas sigma sample p01 p11 Hs Hl Hm Ht Hw Hex.
  unfold log_likelihood_sequencing_with_errors,
         log_likelihood_sequencing_perfect.
  rewrite (clipped_x_shaped _ _ Hs Hl). cbn [bind].
  rewrite call_probability_map. cbn [bind].
  rewrite !broadcast3_same by (rewrite ?length_map; congruence). cbn [bind].
  rewrite (comprehension_overcounted ln _ _ Hw Hex). cbn [bind].
  split; [reflexivity | exact I].
Qed.

Lemma overcounted_site_raises_in_with_errors_witness :
  log_likelihood_sequencing_with_errors
    Example.logpmf Example.ln Example.dark_atlas [one]
    {| name := "s"; x_hat := [Fin 2]; m := [of_nat 2]; t := [of_nat 1] |}
    (Fin (5 # 100)) (Fin (95 # 100))
  = Err ValueError /\
  returns (log_likelihood_sequencing_perfect
             Example.logpmf Example.dark_atlas [one]
             {| name := "s"; x_hat := [Fin 2]; m := [of_nat 2];
                t := [of_nat 1] |}
             (Fin (5 # 100)) (Fin (95 # 100))).
Proof.
  apply overcounted_site_raises_in_with_errors; try reflexivity.
  - repeat constructor.
  - repeat constructor. exists 2%nat, 1%nat. auto.
  - constructor. exists 2%nat, 1%nat. simpl. repeat split. lia.
Defined.

(** ** Without miscalls *)

Lemma fadd_canonical : forall x y, canonical (x + y)%float.
Proof.
  intros [| |a|] [| |b|]; try exact I.
  unfold fadd, fin, canonical. apply Qred_Qred.
Qed.

Lemma fold_fadd_canonical :
  forall l acc, canonical acc -> canonical (fold_left fadd l acc).
Proof.
  induction l as [|x l IH]; intros acc H; simpl.
  - exact H.
  - apply IH, fadd_canonical.
Qed.

Lemma np_sum_canonical : forall l, canonical (np_sum l).
Proof. intros l. apply fold_fadd_canonical. reflexivity. Qed.

(** An entry of the clipped vector is [nan] or a rational in lowest terms
    within [[0,1]]. *)
Lemma clip_canonical :
  forall d,
    canonical d ->
    fmin (fmax d zero) one = NaN \/
    (unit_interval (fmin (fmax d zero) one) /\
     canonical (fmin (fmax d zero) one)).
Proof.
  intros [| |q|] Hd.
  - left. reflexivity.
  - right. simpl. split; [lra | reflexivity].
  - right. split; [apply clip_unit_interval; exact I|].
    unfold fmax, fmin, zero, one. simpl.
    destruct (q ?= 0); simpl; try reflexivity;
      destruct (1 ?= q); simpl; try reflexivity; exact Hd.
  - right. simpl. split; [lra | reflexivity].
Qed.

Lemma clipped_x_entries :
  forall atlas sigma x,
    clipped_x atlas sigma = Ok x ->
    Forall (fun e => e = NaN \/ (unit_interval e /\ canonical e)) x.
Proof.
  intros atlas sigma x H. unfold clipped_x in H.
  destruct (reshape_col sigma (K atlas)) as [c|e]; [|discriminate].
  cbn [bind] in H. unfold get_x, np_matmul in H.
  match type of H with
  | context [if ?b then _ else _] => destruct b; [|discriminate]
  end.
  cbn [bind] in H. injection H as <-.
  unfold np_ravel, np_clip. rewrite map_map. apply Forall_map.
  apply Forall_forall. intros r _. apply clip_canonical.
  unfold dot. apply np_sum_canonical.
Qed.

Lemma no_miscall_probability :
  forall e,
    e = NaN \/ (unit_interval e /\ canonical e) ->
    (e * one + (one - e) * zero)%float = e /\
    (e * (one - zero) + (one - e) * zero)%float = e.
Proof.
  intros e [->|[Hu Hc]]; [split; reflexivity|].
  destruct e as [| |q|]; simpl in Hu; try contradiction.
  simpl in Hc. split.
  - change (Fin q * one + (one - Fin q) * zero)%float
      with (Fin (Qred (Qred (q * 1) + Qred (Qred (1 + Qred (- q)) * 0)))).
    f_equal. rewrite <- Hc at 3. apply Qred_complete.
    rewrite !Qred_correct. ring.
  - change (Fin q * (one - zero) + (one - Fin q) * zero)%float
      with (Fin (Qred (Qred (q * Qred (1 + Qred (- 0)))
                       + Qred (Qred (1 + Qred (- q)) * 0)))).
    f_equal. rewrite <- Hc at 3. apply Qred_complete.
    rewrite !Qred_correct. ring.
Qed.

(** X12.  With no miscalls ([p01 = 0]) and a correct-call rate of one, or
    none given ([p11 = 1] or [p11 = 0]), the sequencing-error model is
    the perfect-calling model up to its constant: the call probability is
    the clipped [x] itself, and the log-likelihood is the perfect one
    minus [sum log C(t, m)], with the same exceptions. *)
Theorem no_miscalls_is_the_perfect_model :
  forall logpmf ln atlas sigma sample p11,
    p11 = one \/ p11 = zero ->
    log_likelihood_sequencing_with_errors logpmf ln atlas sigma sample zero p11
    = (l <- log_likelihood_sequencing_perfect logpmf atlas sigma sample
                                              zero p11 ;;
       coefs <- comprehension (fun mt => log_comb ln (fst mt) (snd mt))
                              (combine (m sample) (t sample)) ;;
       Ok (l - py_sum coefs)%float).
Proof.
  intros logpmf ln atlas sigma sample p11 Hp.
  unfold log_likelihood_sequencing_with_errors,
         log_likelihood_sequencing_perfect.
  destruct (clipped_x atlas sigma) as [x|e] eqn:Ex; [|reflexivity].
  cbn [bind]. rewrite call_probability_map. cbn [bind].
  pose proof (clipped_x_entries _ _ _ Ex) as Hx.
  assert (E : map (fun xi => if truthy p11
                             then xi * p11 + (one - xi) * zero
                             else xi * (one - zero) + (one - xi) * zero)%float x
              = x).
  { rewrite <- (map_id x) at 2. apply map_ext_in. intros e He.
    rewrite Forall_forall in Hx.
    destruct (no_miscall_probability e (Hx e He)) as [E1 E0].
    destruct Hp as [->| ->]; simpl truthy; cbv iota; assumption. }
  rewrite E.
  destruct (broadcast3 logpmf (m sample) (t sample) x); reflexivity.
Qed.

Lemma no_miscalls_is_the_perfect_model_witness :
  log_likelihood_sequencing_with_errors
    Example.logpmf Example.ln Example.atlas [Fin (9 # 10); Fin (1 # 10)]
    Example.sample zero one
  = (l <- log_likelihood_sequencing_perfect
            Example.logpmf Example.atlas [Fin (9 # 10); Fin (1 # 10)]
            Example.sample zero one ;;
     coefs <- comprehension (fun mt => log_comb Example.ln (fst mt) (snd mt))
                            (combine (m Example.sample) (t Example.sample)) ;;
     Ok (l - py_sum coefs)%float).
Proof.
  apply no_miscalls_is_the_perfect_model. left. reflexivity.
Defined.

(** ** Which trial is kept *)

Lemma fltb_fleb_false :
  forall r b, (r <? b)%float = true -> (b <=? r)%float = false.
Proof.
  intros [| |r|] [| |b|]; simpl; auto; try discriminate.
  destruct (Qcompare_spec r b) as [E|E|E]; try discriminate. intros _.
  destruct (Qle_bool b r) eqn:H; [|reflexivity].
  apply Qle_bool_iff in H. exfalso. lra.
Qed.

Lemma worse_stays_worse :
  forall r' b r,
    (r' <=? b)%float = false -> (r <? b)%float = true ->
    (r' <=? r)%float = false.
Proof.
  intros [| |r'|] [| |b|] [| |r|]; simpl; auto; try discriminate.
  intros H1 H2.
  destruct (Qcompare_spec r b) as [E|E|E]; try discriminate.
  destruct (Qle_bool r' b) eqn:H; [discriminate|].
  destruct (Qle_bool r' r) eqn:H'; [|reflexivity].
  apply Qle_bool_iff in H'.
  assert (r' <= b) by lra. apply Qle_bool_iff in H0. congruence.
Qed.

Lemma not_better_stays_worse :
  forall r' b r,
    (r' <? b)%float = false -> (r <? b)%float = true ->
    (r' <=? r)%float = false.
Proof.
  intros [| |r'|] [| |b|] [| |r|]; simpl; auto; try discriminate.
  intros H1 H2.
  destruct (Qcompare_spec r b) as [E|E|E]; try discriminate.
  destruct (Qcompare_spec r' b) as [E'|E'|E']; try discriminate;
    (destruct (Qle_bool r' r) eqn:H'; [|reflexivity]);
    apply Qle_bool_iff in H'; exfalso; lra.
Qed.

Lemma first_best_start : first_best [] (PInf, None).
Proof. unfold first_best. simpl. split; [reflexivity | constructor]. Qed.

Lemma first_best_step :
  forall seen st r,
    first_best seen st -> first_best (seen ++ [r]) (keep_better st r).
Proof.
  intros seen [best_ll [b|]] r; unfold first_best, keep_better; simpl.
  - intros [-> [Himp [pre [post [-> [Hpre Hpost]]]]]].
    destruct (opt_fun r <? opt_fun b)%float eqn:E; simpl.
    + split; [reflexivity|]. split; [exact (fltb_improves _ _ E)|].
      exists (pre ++ b :: post), []. split; [reflexivity|]. split; [|constructor].
      apply Forall_app. split.
      * revert Hpre. apply Forall_impl. intros r' H.
        exact (worse_stays_worse _ _ _ H E).
      * constructor; [exact (fltb_fleb_false _ _ E)|].
        revert Hpost. apply Forall_impl. intros r' H.
        exact (not_better_stays_worse _ _ _ H E).
    + split; [reflexivity|]. split; [exact Himp|].
      exists pre, (post ++ [r]). split; [rewrite <- app_assoc; reflexivity|].
      split; [exact Hpre|]. apply Forall_app. split; [exact Hpost|].
      constructor; [exact E | constructor].
  - intros [-> Hnone].
    destruct (opt_fun r <? PInf)%float eqn:E; simpl.
    + split; [reflexivity|]. split; [exact E|].
      exists seen, []. split; [reflexivity|]. split; [|constructor].
      revert Hnone. apply Forall_impl. intros r' H.
      apply (not_better_stays_worse _ PInf _); [|exact E].
      unfold improves in H. destruct (opt_fun r' <? PInf)%float; congruence.
    + split; [reflexivity|]. apply Forall_app. split; [exact Hnone|].
      constructor; [|constructor]. unfold improves. congruence.
Qed.

Lemma first_best_fold :
  forall rs seen st,
    first_best seen st -> first_best (seen ++ rs) (fold_left keep_better rs st).
Proof.
  induction rs as [|r rs IH]; intros seen st H; simpl.
  - rewrite app_nil_r. exact H.
  - replace (seen ++ r :: rs) with ((seen ++ [r]) ++ rs)
      by (rewrite <- app_assoc; reflexivity).
    apply IH, first_best_step, H.
Qed.

(** X13.  The multi-start loop keeps the first trial that attains the
    smallest objective: the returned mixture is the normalised solution
    of a trial that beats [np.inf], every earlier trial is strictly worse
    or reports [nan], and no later trial is strictly better, so a later
    tie and a [nan] objective never replace it. *)
Theorem ties_keep_the_first_trial :
  forall logpmf ln dirichlet_rvs minimize l atlas sample p01 p11 sigma,
    fit_ll logpmf ln dirichlet_rvs minimize l atlas sample p01 p11 = Ok sigma \/
    script_fit_ll logpmf ln dirichlet_rvs minimize l atlas sample p01 p11 true
    = Ok sigma ->
    exists pre b post,
      Forall2 (fun init r =>
                 trial minimize (objective logpmf ln l atlas sample p01 p11)
                       (K atlas) init = Ok r)
              (starts dirichlet_rvs (K atlas)) (pre ++ b :: post) /\
      sigma = normalize (opt_x b) /\
      improves b /\
      Forall (fun r => (opt_fun r <=? opt_fun b)%float = false) pre /\
      Forall (fun r => (opt_fun r <? opt_fun b)%float = false) post.
Proof.
  intros logpmf ln dirichlet_rvs minimize l atlas sample p01 p11 sigma H.
  assert (Hfit : fit_ll logpmf ln dirichlet_rvs minimize l atlas sample p01 p11
                 = Ok sigma).
  { destruct H as [H|H]; [exact H|].
    rewrite script_fit_ll_unfold in H. exact H. }
  clear H. rewrite fit_ll_unfold in Hfit.
  destruct (uniform_vector (K atlas)) as [alpha|e] eqn:Ea; [|discriminate].
  apply uniform_vector_Ok in Ea. destruct Ea as [_ ->]. cbn [bind] in Hfit.
  match type of Hfit with
  | bind ?c _ = _ => destruct c as [st|e] eqn:Et; [|discriminate]
  end.
  cbn [bind] in Hfit.
  destruct (trials_sound _ _ _ _ _ _ _ Et) as [rs [Hrs ->]].
  pose proof (first_best_fold rs [] _ first_best_start) as Hsel.
  simpl app in Hsel. unfold best_solution in Hfit.
  destruct (fold_left keep_better rs (PInf, None)) as [best_ll [b|]];
    [|discriminate].
  injection Hfit as <-.
  unfold first_best in Hsel. simpl in Hsel.
  destruct Hsel as [_ [Himp [pre [post [-> [Hpre Hpost]]]]]].
  exists pre, b, post. auto.
Qed.

Lemma ties_keep_the_first_trial_witness :
  exists pre b post,
    Forall2 (fun init r =>
               trial Example.minimize
                     (objective Example.logpmf Example.ln WithErrors
                                Example.atlas Example.sample
                                (Fin (5 # 100)) (Fin (95 # 100)))
                     (K Example.atlas) init = Ok r)
            (starts Example.dirichlet_rvs (K Example.atlas))
            (pre ++ b :: post) /\
    [Fin 1; Fin 0] = normalize (opt_x b) /\
    improves b /\
    Forall (fun r => (opt_fun r <=? opt_fun b)%float = false) pre /\
    Forall (fun r => (opt_fun r <? opt_fun b)%float = false) post.
Proof.
  apply (ties_keep_the_first_trial
           Example.logpmf Example.ln Example.dirichlet_rvs Example.minimize
           WithErrors Example.atlas Example.sample
           (Fin (5 # 100)) (Fin (95 # 100)) [Fin 1; Fin 0]).
  left. vm_compute. reflexivity.
Defined.

(** ** The objective *)

Lemma neg_reverses_order :
  forall a b, (of_Z (-1) * a <? of_Z (-1) * b)%float = (b <? a)%float.
Proof.
  intros [| |a|] [| |b|]; try reflexivity.
  unfold of_Z. cbn [fmul]. unfold fin, fltb.
  destruct (Qcompare_spec (Qred (inject_Z (-1) * a)) (Qred (inject_Z (-1) * b)))
    as [E|E|E];
    rewrite !Qred_correct in E;
    change (inject_Z (-1)) with (-1 # 1) in E;
    destruct (Qcompare_spec b a) as [E'|E'|E']; try reflexivity;
    exfalso; lra.
Qed.

(** X14.  The objective handed to [minimize] orders mixture vectors
    against their likelihood: where the likelihood is defined at both,
    the objective at one is smaller exactly when its log-likelihood is
    larger. *)
Theorem smaller_objective_is_larger_likelihood :
  forall (ll : vec -> result float) x y lx ly,
    ll x = Ok lx -> ll y = Ok ly ->
    exists fx fy,
      neg_ll ll x = Ok fx /\ neg_ll ll y = Ok fy /\
      (fx <? fy)%float = (ly <? lx)%float.
Proof.
  intros ll x y lx ly Hx Hy. unfold neg_ll. rewrite Hx, Hy. cbn [bind].
  eexists. eexists. split; [reflexivity|]. split; [reflexivity|].
  apply neg_reverses_order.
Qed.

Lemma smaller_objective_is_larger_likelihood_witness :
  exists fx fy,
    neg_ll (fun x => log_likelihood_sequencing_perfect
                       Example.logpmf Example.atlas x Example.sample zero one)
           [Fin (9 # 10); Fin (1 # 10)] = Ok fx /\
    neg_ll (fun x => log_likelihood_sequencing_perfect
                       Example.logpmf Example.atlas x Example.sample zero one)
           [Fin 1; Fin 0] = Ok fy /\
    (fx <? fy)%float = (NInf <? Fin (-43 # 5))%float.
Proof.
  apply (smaller_objective_is_larger_likelihood
           (fun x => log_likelihood_sequencing_perfect
                       Example.logpmf Example.atlas x Example.sample zero one));
    vm_compute; reflexivity.
Defined.

(** ** Dividing by the sum, at the edges *)

Lemma normalize_zero :
  forall x,
    Forall (fun e => finite e /\ value_of e == 0) x ->
    normalize x = repeat NaN (length x).
Proof.
  intros x Hx.
  assert (Hf : Forall finite x).
  { revert Hx. apply Forall_impl. tauto. }
  destruct (np_sum_total x Hf) as [s [Es [Hs _]]].
  assert (H0 : s == 0).
  { rewrite Hs. clear Es Hs Hf. induction Hx as [|e x [_ He] Hx IH].
    - reflexivity.
    - rewrite total_cons, He, IH. reflexivity. }
  unfold normalize. rewrite Es. clear Es Hs Hf.
  induction Hx as [|e x [Hfe He] Hx IH]; simpl.
  - reflexivity.
  - f_equal; [|exact IH].
    destruct e as [| |a|]; simpl in Hfe; try contradiction.
    cbn [value_of] in He. unfold fdiv.
    rewrite (Qeq_eq_bool _ _ H0).
    destruct (Qcompare_spec a 0) as [E|E|E]; try reflexivity; exfalso; lra.
Qed.

(** X16.  Nothing guards the division by the sum: when [nnls] returns a
    solution of zeros, [fit_nnls] raises nothing and returns a vector of
    [nan], one per entry. *)
Theorem zero_solution_gives_nan :
  forall nnls atlas sample x rnorm,
    shaped atlas ->
    nnls (A atlas ++ [repeat one (K atlas)]) (x_hat sample ++ [one])
    = Ok (x, rnorm) ->
    Forall (fun e => finite e /\ value_of e == 0) x ->
    fit_nnls nnls atlas sample = Ok (repeat NaN (length x)).
Proof.
  intros nnls atlas sample x rnorm Hs E Hx. unfold fit_nnls.
  rewrite (np_append_rows_shaped _ Hs). cbn [bind]. rewrite E. cbn [bind fst].
  rewrite (normalize_zero x Hx). reflexivity.
Qed.

Lemma zero_solution_gives_nan_witness :
  fit_nnls Edge.nnls Example.atlas Example.sample
  = Ok (repeat NaN (length [zero; zero])).
Proof.
  apply (zero_solution_gives_nan Edge.nnls Example.atlas Example.sample
                                 [zero; zero] zero).
  - repeat constructor.
  - reflexivity.
  - repeat constructor.
Defined.

(** X17.  The equality constraint handed to [minimize] vanishes exactly
    on the vectors whose entries sum to one. *)
Theorem eq_constraint_vanishes_on_sum_one :
  forall x, eq_constraint x = zero <-> np_sum x = one.
Proof.
  intros x. unfold eq_constraint.
  pose proof (np_sum_canonical x) as Hc.
  destruct (np_sum x) as [| |s|]; try (split; discriminate).
  simpl in Hc. unfold one, zero.
  change (Fin 1 - Fin s)%float with (Fin (Qred (1 + Qred (- s)))).
  split; intros H.
  - assert (E : Qred (1 + Qred (- s)) = 0) by congruence.
    f_equal. rewrite <- Hc. change 1 with (Qred 1). apply Qred_complete.
    assert (E' : Qred (1 + Qred (- s)) == 0) by (rewrite E; reflexivity).
    rewrite !Qred_correct in E'. lra.
  - assert (E : s = 1) by congruence. subst s. reflexivity.
Qed.

(** ** Runs and their traces *)

Lemma outcome_bind :
  forall {X Y : Type} (c : io X) (k : X -> io Y),
    outcome (io_bind c k) =
    match outcome c with
    | Ok a => outcome (k a)
    | Err e => Err e
    end.
Proof.
  intros X Y [tr [a|e]] k; unfold io_bind, outcome; simpl.
  - destruct (k a). reflexivity.
  - reflexivity.
Qed.

Lemma trace_bind :
  forall {X Y : Type} (c : io X) (k : X -> io Y),
    trace (io_bind c k) =
    trace c ++ match outcome c with
               | Ok a => trace (k a)
               | Err e => []
               end.
Proof.
  intros X Y [tr [a|e]] k; unfold io_bind, outcome, trace; simpl.
  - destruct (k a). reflexivity.
  - rewrite app_nil_r. reflexivity.
Qed.

Lemma io_bind_Ok :
  forall {X Y : Type} (c : io X) (k : X -> io Y) y,
    outcome (io_bind c k) = Ok y ->
    exists a, outcome c = Ok a /\ outcome (k a) = Ok y.
Proof.
  intros X Y c k y H. rewrite outcome_bind in H.
  destruct (outcome c) as [a|e]; [eauto | discriminate].
Qed.

Lemma with_errors_Ok_length :
  forall logpmf ln atlas sigma sample p01 p11 l,
    log_likelihood_sequencing_with_errors logpmf ln atlas sigma sample p01 p11
    = Ok l ->
    length sigma = K atlas.
Proof.
  intros logpmf ln atlas sigma sample p01 p11 l H.
  unfold log_likelihood_sequencing_with_errors, clipped_x, reshape_col in H.
  destruct (Nat.eqb_spec (length sigma) (K atlas)) as [E|N]; [exact E|].
  discriminate.
Qed.

Lemma setitem_length :
  forall a i x a', setitem a i x = Ok a' -> length a' = length a.
Proof.
  induction a as [|y a IH]; intros [|i] x a' H; simpl in H; try discriminate.
  - injection H as <-. reflexivity.
  - destruct (setitem a i x) as [a''|e] eqn:E; [|discriminate].
    cbn [bind] in H. injection H as <-. simpl. f_equal. exact (IH _ _ _ E).
Qed.

Lemma mark_true_sigma_length :
  forall cell_types i ts ts',
    mark_true_sigma cell_types i ts = Ok ts' -> length ts' = length ts.
Proof.
  induction cell_types as [|c cs IH]; intros i ts ts' H; simpl in H.
  - injection H as <-. reflexivity.
  - destruct (String.eqb c "Lung cells").
    + destruct (setitem ts i (Fin (3 # 10))) as [u|e] eqn:E; [|discriminate].
      cbn [bind] in H. rewrite (IH _ _ _ H). exact (setitem_length _ _ _ _ E).
    + destruct (String.eqb c "Monocytes EPIC").
      * destruct (setitem ts i (Fin (7 # 10))) as [u|e] eqn:E; [|discriminate].
        cbn [bind] in H. rewrite (IH _ _ _ H). exact (setitem_length _ _ _ _ E).
      * cbn [bind] in H. exact (IH _ _ _ H).
Qed.

(** ** The script's [deconvolve] *)

Section Deconvolve.

Variable logpmf : float -> float -> float -> float.
Variable ln : Z -> Q.
Variable dirichlet_rvs : vec -> nat -> list vec.
Variable minimize :
  (vec -> result float) -> vec -> string -> nat -> list (float * float) ->
  (vec -> float) -> result OptimizeResult.
Variable nnls : matrix -> vec -> result (vec * float).
Variable read_csv : string -> result DataFrame.
Variable drop_duplicates dropna : DataFrame -> DataFrame.
Variable PyRanges_sort : DataFrame -> result DataFrame.
Variable join : DataFrame -> DataFrame -> result DataFrame.

Let one := deconvolve_one logpmf ln dirichlet_rvs minimize nnls dropna
                          PyRanges_sort join.
Let loop := deconvolve_loop logpmf ln dirichlet_rvs minimize nnls read_csv
                            dropna PyRanges_sort join.
Let run := deconvolve logpmf ln dirichlet_rvs minimize nnls read_csv
                      drop_duplicates dropna PyRanges_sort join.

Ltac invert_bind H :=
  repeat (apply io_bind_Ok in H;
          let a := fresh "a" in
          let E := fresh "E" in
          destruct H as [a [E H]]; cbv beta zeta in H).

(** An iteration that completes has fitted an atlas of twenty-five cell
    types and appended one vector and one name. *)
Lemma deconvolve_one_Ok :
  forall gr_atlas df methylome model p01 p11 random_inits st st',
    outcome (one gr_atlas df methylome model p01 p11 random_inits st) = Ok st' ->
    exists atlas sigma,
      K atlas = 25%nat /\ length sigma = 25%nat /\
      st' = {| Y := Y st ++ [sigma];
               sample_names := sample_names st ++ [get_sample_name methylome];
               cur_atlas := inr atlas;
               cur_sigma := Some sigma |}.
Proof.
  intros gr_atlas df methylome model p01 p11 random_inits st st' H.
  unfold one, deconvolve_one in H. cbv zeta in H.
  invert_bind H.
  unfold pure, outcome in *. cbn [snd] in *.
  match goal with
  | Ht : mark_true_sigma _ _ _ = Ok ?ts,
    Hl : log_likelihood_sequencing_with_errors _ _ ?atlas ?ts _ _ _ = Ok _,
    Hs : log_likelihood_sequencing_with_errors _ _ ?atlas ?sigma _ _ _ = Ok _
    |- _ =>
      apply mark_true_sigma_length in Ht; rewrite repeat_length in Ht;
      apply with_errors_Ok_length in Hl;
      apply with_errors_Ok_length in Hs;
      exists atlas, sigma
  end.
  injection H as <-.
  repeat split; congruence.
Qed.

Lemma read_cases :
  forall path,
    read read_csv path = ([ReadCsv path], read_csv path).
Proof. reflexivity. Qed.

Lemma loop_keeps_invariant :
  forall path gr_atlas methylomes model p01 p11 random_inits st st',
    between_iterations path st ->
    outcome (loop gr_atlas methylomes model p01 p11 random_inits st) = Ok st' ->
    between_iterations path st'.
Proof.
  intros path gr_atlas methylomes model p01 p11 random_inits.
  induction methylomes as [|mth rest IH]; intros st st' Hinv H.
  - simpl in H. injection H as <-. exact Hinv.
  - unfold loop in H. cbn [deconvolve_loop] in H. rewrite read_cases in H.
    fold loop in H.
    destruct (read_csv mth) as [d|e].
    + apply io_bind_Ok in H. destruct H as [st1 [E1 H]].
      apply io_bind_Ok in E1. destruct E1 as [u [_ E1]].
      fold one in E1.
      apply (IH st1 st'); [|exact H].
      destruct (deconvolve_one_Ok _ _ _ _ _ _ _ _ _ E1)
        as [atlas [sigma [HK [Hl ->]]]].
      destruct Hinv as [Hlen [Hall _]].
      unfold between_iterations. cbn [Y sample_names cur_atlas].
      split; [rewrite !length_app, Hlen; reflexivity|].
      split; [|exact HK].
      apply Forall_app. split; [exact Hall | repeat constructor; exact Hl].
    + destruct e; try discriminate.
      apply io_bind_Ok in H. destruct H as [u [_ H]].
      exact (IH st st' Hinv H).
Qed.

(** X18.  When the script's [deconvolve] returns, it returns one name per
    fitted vector, every fitted vector has twenty-five entries, and the
    atlas it returns has twenty-five cell types: the likelihood at the
    hard-wired [true_sigma = np.zeros(25)] raises for any other [K].
    When no sample was fitted, the value returned as [atlas] is the path
    it was given. *)
Theorem deconvolve_needs_25_cell_types :
  forall methylomes atlas_path model p01 p11 random_inits ys names a,
    outcome (run methylomes atlas_path model p01 p11 random_inits)
    = Ok (ys, names, a) ->
    length ys = length names /\
    Forall (fun y => length y = 25%nat) ys /\
    match a with
    | inl p => p = atlas_path /\ ys = []
    | inr atlas => K atlas = 25%nat
    end.
Proof.
  intros methylomes atlas_path model p01 p11 random_inits ys names a H.
  unfold run, deconvolve in H. cbv zeta in H.
  apply io_bind_Ok in H. destruct H as [df [_ H]].
  apply io_bind_Ok in H. destruct H as [gr [_ H]].
  apply io_bind_Ok in H. destruct H as [st [E H]].
  unfold pure, outcome in H. cbn [snd] in H. injection H as <- <- <-.
  fold loop in E.
  apply (loop_keeps_invariant atlas_path _ _ _ _ _ _ _ st) in E; [exact E|].
  unfold between_iterations. simpl. auto.
Qed.

(** A methylome file that reads as empty is skipped. *)
Lemma loop_skips_empty :
  forall gr_atlas pre mth post model p01 p11 random_inits st,
    read_csv mth = Err EmptyDataError ->
    outcome (loop gr_atlas (pre ++ mth :: post) model p01 p11 random_inits st) =
    outcome (loop gr_atlas (pre ++ post) model p01 p11 random_inits st).
Proof.
  intros gr_atlas pre mth post model p01 p11 random_inits st Hm. revert st.
  induction pre as [|x pre IH]; intros st.
  - unfold loop. cbn [app deconvolve_loop]. rewrite read_cases, Hm.
    rewrite outcome_bind. reflexivity.
  - unfold loop. cbn [app deconvolve_loop]. rewrite !read_cases.
    fold loop.
    destruct (read_csv x) as [d|e].
    + rewrite (outcome_bind (X := locals)).
      rewrite (outcome_bind (X := locals)
                 _ (fun st' => loop gr_atlas (pre ++ post) model p01 p11
                                    random_inits st')).
      match goal with
      | |- match ?o with _ => _ end = _ => destruct o as [st1|e1]
      end; [apply IH | reflexivity].
    + destruct e; try reflexivity.
      rewrite !outcome_bind. cbn [outcome snd]. apply IH.
Qed.

(** X19.  An empty methylome file is skipped by [deconvolve]: the run
    with the file in the list ends as the run without it, with the same
    vectors, names and atlas, or the same exception. *)
Theorem deconvolve_skips_empty_files :
  forall pre mth post atlas_path model p01 p11 random_inits,
    read_csv mth = Err EmptyDataError ->
    outcome (run (pre ++ mth :: post) atlas_path model p01 p11 random_inits) =
    outcome (run (pre ++ post) atlas_path model p01 p11 random_inits).
Proof.
  intros pre mth post atlas_path model p01 p11 random_inits Hm.
  unfold run, deconvolve. cbv zeta.
  rewrite !outcome_bind.
  destruct (outcome (read read_csv atlas_path)) as [df|e]; [|reflexivity].
  rewrite !outcome_bind.
  destruct (outcome (pure (PyRanges_sort _))) as [gr|e]; [|reflexivity].
  rewrite !outcome_bind. fold loop.
  rewrite (loop_skips_empty gr pre mth post _ _ _ _ _ Hm). reflexivity.
Qed.

End Deconvolve.

Lemma deconvolve_needs_25_cell_types_witness :
  exists ys names a,
    outcome (deconvolve Example.logpmf Example.ln Example.dirichlet_rvs
                        Example.minimize Example.nnls Edge.read_wide
                        Example.keep Example.keep Example.PyRanges_sort
                        Example.join ["empty.tsv"; "sample.tsv"]%string
                        "wide.tsv" "llsp" (Fin (5 # 100)) (Fin (95 # 100)) false)
    = Ok (ys, names, a) /\
    length ys = length names /\
    Forall (fun y => length y = 25%nat) ys /\
    match a with
    | inl p => p = "wide.tsv"%string /\ ys = []
    | inr atlas => K atlas = 25%nat
    end.
Proof.
  eexists. eexists. eexists. split; [vm_compute; reflexivity|].
  apply (deconvolve_needs_25_cell_types
           Example.logpmf Example.ln Example.dirichlet_rvs Example.minimize
           Example.nnls Edge.read_wide Example.keep Example.keep
           Example.PyRanges_sort Example.join
           ["empty.tsv"; "sample.tsv"]%string "wide.tsv" "llsp"
           (Fin (5 # 100)) (Fin (95 # 100)) false).
  vm_compute. reflexivity.
Defined.

Lemma deconvolve_skips_empty_files_witness :
  outcome (deconvolve Example.logpmf Example.ln Example.dirichlet_rvs
                      Example.minimize Example.nnls Edge.read_wide
                      Example.keep Example.keep Example.PyRanges_sort
                      Example.join ([] ++ "empty.tsv"%string :: ["sample.tsv"%string])
                      "wide.tsv" "llsp" (Fin (5 # 100)) (Fin (95 # 100)) false) =
  outcome (deconvolve Example.logpmf Example.ln Example.dirichlet_rvs
                      Example.minimize Example.nnls Edge.read_wide
                      Example.keep Example.keep Example.PyRanges_sort
                      Example.join ([] ++ ["sample.tsv"%string])
                      "wide.tsv" "llsp" (Fin (5 # 100)) (Fin (95 # 100)) false).
Proof.
  apply deconvolve_skips_empty_files. reflexivity.
Defined.

Section ScriptModels.

Variable logpmf : float -> float -> float -> float.
Variable ln : Z -> Q.
Variable dirichlet_rvs : vec -> nat -> list vec.
Variable minimize :
  (vec -> result float) -> vec -> string -> nat -> list (float * float) ->
  (vec -> float) -> result OptimizeResult.
Variable nnls : matrix -> vec -> result (vec * float).
Variable read_csv : string -> result DataFrame.
Variable drop_duplicates dropna : DataFrame -> DataFrame.
Variable PyRanges_sort : DataFrame -> result DataFrame.
Variable join : DataFrame -> DataFrame -> result DataFrame.

Let one := deconvolve_one logpmf ln dirichlet_rvs minimize nnls dropna
                          PyRanges_sort join.
Let loop := deconvolve_loop logpmf ln dirichlet_rvs minimize nnls read_csv
                            dropna PyRanges_sort join.
Let run := deconvolve logpmf ln dirichlet_rvs minimize nnls read_csv
                      drop_duplicates dropna PyRanges_sort join.

Ltac step :=
  match goal with
  | |- context [match ?c with Ok _ => _ | Err _ => _ end] =>
      destruct c eqn:?; simpl
  end.

(** With a model name the script does not know and [sigma] still unbound,
    an iteration starts no driver and ends in an exception. *)
Lemma deconvolve_one_unknown :
  forall gr_atlas df methylome model p01 p11 random_inits st,
    ~ script_supported model ->
    cur_sigma st = None ->
    exists e,
      one gr_atlas df methylome model p01 p11 random_inits st = ([], Err e).
Proof.
  intros gr_atlas df methylome model p01 p11 random_inits st Hm Hs.
  unfold one, deconvolve_one, pure, io_bind. cbv zeta.
  destruct (String.eqb_spec model "nnls") as [E|_];
    [exfalso; apply Hm; unfold script_supported; auto|].
  destruct (String.eqb_spec model "llse") as [E|_];
    [exfalso; apply Hm; unfold script_supported; auto|].
  destruct (String.eqb_spec model "llsp") as [E|_];
    [exfalso; apply Hm; unfold script_supported; auto|].
  rewrite Hs. simpl.
  repeat step; eauto.
Qed.

Lemma loop_unknown :
  forall gr_atlas methylomes model p01 p11 random_inits st,
    ~ script_supported model ->
    cur_sigma st = None ->
    (forall d, ~ In (Fitting d)
                    (trace (loop gr_atlas methylomes model p01 p11
                                 random_inits st))) /\
    (forall st',
       outcome (loop gr_atlas methylomes model p01 p11 random_inits st)
       = Ok st' -> st' = st).
Proof.
  intros gr_atlas methylomes model p01 p11 random_inits st Hm Hs.
  induction methylomes as [|mth rest [IHt IHo]].
  - split.
    + intros d H. exact H.
    + intros st' H. simpl in H. injection H as <-. reflexivity.
  - unfold loop. cbn [deconvolve_loop]. fold loop.
    change (read read_csv mth) with ([ReadCsv mth], read_csv mth).
    destruct (read_csv mth) as [d|e].
    + fold one.
      destruct (deconvolve_one_unknown gr_atlas (rename d) mth model p01 p11
                                       random_inits st Hm Hs) as [e E].
      rewrite E. simpl. split.
      * intros d' [H|H]; [discriminate | exact H].
      * intros st' H. discriminate.
    + destruct e;
        first
          [ rewrite trace_bind, outcome_bind; cbn [trace outcome fst snd app];
            split;
            [ intros d' [H|H]; [discriminate | exact (IHt d' H)]
            | exact IHo ]
          | simpl; split;
            [ intros d' [H|H]; [discriminate | exact H]
            | intros st' H; discriminate ] ].
Qed.

(** X20.  The script's [deconvolve] knows [nnls], [llse] and [llsp] only.
    With any other model name, [null] included, it builds an exception and
    drops it: no driver is ever started, and the run either ends in an
    exception or, when every methylome was skipped, returns no vector, no
    name and the atlas path. *)
Theorem deconvolve_unknown_model_fits_nothing :
  forall methylomes atlas_path model p01 p11 random_inits,
    ~ script_supported model ->
    let r := run methylomes atlas_path model p01 p11 random_inits in
    (forall d, ~ In (Fitting d) (trace r)) /\
    (forall ys names a,
       outcome r = Ok (ys, names, a) ->
       ys = [] /\ names = [] /\ a = inl atlas_path).
Proof.
  intros methylomes atlas_path model p01 p11 random_inits Hm r.
  subst r. unfold run, deconvolve. cbv zeta.
  change (read read_csv atlas_path)
    with ([ReadCsv atlas_path], read_csv atlas_path).
  destruct (read_csv atlas_path) as [df|e];
    [|simpl; split; [intros d [H|H]; [discriminate | exact H]
                    | intros; discriminate]].
  rewrite !trace_bind, !outcome_bind. cbn [trace outcome fst snd].
  unfold pure at 1 2 3 4. cbn [fst snd].
  destruct (PyRanges_sort (dropna (drop_duplicates (rename df)))) as [gr|e];
    [|simpl; split; [intros d [H|H]; [discriminate | exact H]
                    | intros; discriminate]].
  set (st0 := {| Y := []; sample_names := []; cur_atlas := inl atlas_path;
                 cur_sigma := None |}).
  fold loop.
  destruct (loop_unknown gr methylomes model p01 p11 random_inits st0 Hm
                         eq_refl) as [Ht Ho].
  rewrite !trace_bind, !outcome_bind.
  fold (trace (loop gr methylomes model p01 p11 random_inits st0)).
  fold (outcome (loop gr methylomes model p01 p11 random_inits st0)).
  destruct (outcome (loop gr methylomes model p01 p11 random_inits st0))
    as [st'|e] eqn:E.
  - specialize (Ho st' eq_refl). subst st'. simpl. split.
    + intros d [H|H]; [discriminate|].
      rewrite ?trace_bind, ?E in H. simpl in H.
      rewrite ?app_nil_r in H. exact (Ht d H).
    + intros ys names a H. rewrite ?outcome_bind, ?E in H.
      unfold st0 in H. simpl in H. injection H as <- <- <-. auto.
  - simpl. split.
    + intros d [H|H]; [discriminate|].
      rewrite ?trace_bind, ?E in H. simpl in H.
      rewrite ?app_nil_r in H. exact (Ht d H).
    + intros ys names a H. rewrite ?outcome_bind, ?E in H. discriminate.
Qed.

End ScriptModels.

Lemma deconvolve_unknown_model_fits_nothing_witness :
  let r := deconvolve Example.logpmf Example.ln Example.dirichlet_rvs
                      Example.minimize Example.nnls Edge.read_csv
                      Example.keep Example.keep Example.PyRanges_sort
                      Example.join ["empty.tsv"; "sample.tsv"]%string
                      "atlas.tsv" "null" zero one true in
  (forall d, ~ In (Fitting d) (trace r)) /\
  (forall ys names a,
     outcome r = Ok (ys, names, a) ->
     ys = [] /\ names = [] /\ a = inl "atlas.tsv"%string).
Proof.
  apply (deconvolve_unknown_model_fits_nothing
           Example.logpmf Example.ln Example.dirichlet_rvs Example.minimize
           Example.nnls Edge.read_csv Example.keep Example.keep
           Example.PyRanges_sort Example.join
           ["empty.tsv"; "sample.tsv"]%string "atlas.tsv" "null" zero one true).
  unfold script_supported. intros [H|[H|H]]; discriminate H.
Defined.

(** ** [fit_model] from the outside *)

Section FitModel.

Variable logpmf : float -> float -> float -> float.
Variable ln : Z -> Q.
Variable dirichlet_rvs : vec -> nat -> list vec.
Variable minimize :
  (vec -> result float) -> vec -> string -> nat -> list (float * float) ->
  (vec -> float) -> result OptimizeResult.
Variable nnls : matrix -> vec -> result (vec * float).
Variable read_csv : string -> result DataFrame.
Variable drop_duplicates dropna : DataFrame -> DataFrame.
Variable PyRanges_sort : DataFrame -> result DataFrame.
Variable join : DataFrame -> DataFrame -> result DataFrame.

Let run := fit_model logpmf ln dirichlet_rvs minimize nnls read_csv
                     drop_duplicates dropna PyRanges_sort join.

(** X21.  An empty methylome file is not reported as such by
    [fit_model]: the exception built for it is dropped, [df] stays
    unbound, and the run ends in [UnboundLocalError] once the atlas has
    been read and sorted, after both reads and before any driver. *)
Theorem empty_methylome_is_an_unbound_local :
  forall methylome atlas_path model p01 p11 df_atlas,
    read_csv atlas_path = Ok df_atlas ->
    (forall df, returns (PyRanges_sort df)) ->
    read_csv methylome = Err EmptyDataError ->
    run methylome atlas_path model p01 p11
    = ([ReadCsv atlas_path; ReadCsv methylome], Err UnboundLocalError).
Proof.
  intros methylome atlas_path model p01 p11 df_atlas Ha Hsort Hm.
  unfold run, fit_model, read, emit, pure, io_bind. cbv zeta. simpl.
  rewrite Ha. simpl.
  match goal with
  | |- context [PyRanges_sort ?d] =>
      pose proof (Hsort d) as Hs; destruct (PyRanges_sort d); [|contradiction]
  end.
  simpl. rewrite Hm. reflexivity.
Qed.

Lemma select_model_cases :
  forall atlas s model p01 p11,
    (~ supported model /\
     select_model logpmf ln dirichlet_rvs minimize nnls atlas s model p01 p11
     = ([], Err ValueError)) \/
    (supported model /\
     exists r,
       select_model logpmf ln dirichlet_rvs minimize nnls atlas s model p01 p11
       = ([Fitting model], r)).
Proof.
  intros atlas s model p01 p11. unfold select_model, supported.
  destruct (String.eqb_spec model "nnls") as [->|N1];
    [right; split; [auto | eexists; reflexivity]|].
  destruct (String.eqb_spec model "llse") as [->|N2];
    [right; split; [auto | eexists; reflexivity]|].
  destruct (String.eqb_spec model "llsp") as [->|N3];
    [right; split; [auto | eexists; reflexivity]|].
  destruct (String.eqb_spec model "null") as [->|N4];
    [right; split; [auto 6 | eexists; reflexivity]|].
  left. split; [intuition | reflexivity].
Qed.

Ltac step :=
  match goal with
  | |- context [match ?c with Ok _ => _ | Err _ => _ end] =>
      destruct c eqn:?; simpl
  | |- context [match ?e with ValueError => _ | _ => _ end] =>
      destruct e; simpl
  end.

(** X22.  Whatever the files and the model name, [fit_model] reads the
    atlas first, the methylome second, and starts at most one driver,
    the one named, after both reads; a run that returns a mixture vector
    has done exactly that, for a supported model. *)
Theorem fit_model_reads_then_fits :
  forall methylome atlas_path model p01 p11,
    let r := run methylome atlas_path model p01 p11 in
    (trace r = [ReadCsv atlas_path] \/
     trace r = [ReadCsv atlas_path; ReadCsv methylome] \/
     (trace r = [ReadCsv atlas_path; ReadCsv methylome; Fitting model] /\
      supported model)) /\
    (returns (outcome r) ->
     trace r = [ReadCsv atlas_path; ReadCsv methylome; Fitting model] /\
     supported model).
Proof.
  intros methylome atlas_path model p01 p11 r. subst r.
  unfold run, fit_model, read, emit, pure, io_bind. simpl.
  repeat (first
    [ match goal with
      | |- context [select_model _ _ _ _ _ ?a ?s model p01 p11] =>
          destruct (select_model_cases a s model p01 p11)
            as [[Hn E]|[Hs [res E]]]; rewrite E
      end
    | step ]; simpl);
  split; auto; try (intros []);
  try (intros _; split; [reflexivity | assumption]).
Qed.

End FitModel.

Lemma empty_methylome_is_an_unbound_local_witness :
  fit_model Example.logpmf Example.ln Example.dirichlet_rvs Example.minimize
            Example.nnls Edge.read_csv Example.keep Example.keep
            Example.PyRanges_sort Example.join
            "empty.tsv" "atlas.tsv" "nnls" zero one
  = ([ReadCsv "atlas.tsv"; ReadCsv "empty.tsv"], Err UnboundLocalError).
Proof.
  apply (empty_methylome_is_an_unbound_local
           Example.logpmf Example.ln Example.dirichlet_rvs Example.minimize
           Example.nnls Edge.read_csv Example.keep Example.keep
           Example.PyRanges_sort Example.join
           "empty.tsv" "atlas.tsv" "nnls" zero one Example.atlas_table).
  - reflexivity.
  - intros df. exact I.
  - reflexivity.
Defined.

(** ** When the multi-start drivers return *)

Section Returning.

Variable logpmf : float -> float -> float -> float.
Variable ln : Z -> Q.
Variable dirichlet_rvs : vec -> nat -> list vec.
Variable minimize :
  (vec -> result float) -> vec -> string -> nat -> list (float * float) ->
  (vec -> float) -> result OptimizeResult.

(** X23.  When all ten minimisations return, the multi-start driver
    returns a mixture exactly when at least one trial reports an
    objective below [np.inf]; a trial at [inf] or [nan] does not count. *)
Theorem returns_iff_some_trial_improves :
  forall l atlas sample p01 p11 rs,
    K atlas <> 0%nat ->
    Forall2 (fun init r =>
               trial minimize (objective logpmf ln l atlas sample p01 p11)
                     (K atlas) init = Ok r)
            (starts dirichlet_rvs (K atlas)) rs ->
    (returns (fit_ll logpmf ln dirichlet_rvs minimize l atlas sample p01 p11)
     <-> Exists improves rs).
Proof.
  intros l atlas sample p01 p11 rs HK Hrs.
  rewrite fit_ll_unfold. unfold uniform_vector.
  destruct (Nat.eqb_spec (K atlas) 0) as [E0|_]; [contradiction|].
  cbn [bind]. unfold starts, trial in Hrs.
  rewrite (trials_complete _ _ _ _ _ _ (PInf, None) Hrs). cbn [bind].
  pose proof (selected_fold rs [] _ selected_start) as Hsel.
  simpl app in Hsel. unfold best_solution.
  destruct (fold_left keep_better rs (PInf, None)) as [best_ll [b|]];
    unfold selected in Hsel; simpl in Hsel.
  - destruct Hsel as [_ [Hin [Himp _]]]. split; [|intros _; exact I].
    intros _. apply Exists_exists. exists b. auto.
  - destruct Hsel as [_ Hnone]. split; [intros []|].
    intros Hex. apply Exists_exists in Hex. destruct Hex as [r [Hr Hi]].
    rewrite Forall_forall in Hnone. exact (Hnone r Hr Hi).
Qed.

Lemma trials_abort :
  forall f bnds cons pre init post rs e st,
    Forall2 (fun i r => minimize f i "SLSQP" 100%nat bnds cons = Ok r) pre rs ->
    minimize f init "SLSQP" 100%nat bnds cons = Err e ->
    trials minimize f bnds cons (pre ++ init :: post) st = Err e.
Proof.
  intros f bnds cons pre init post rs e st H He. revert st.
  induction H as [|i r pre rs Hi H IH]; intros st; simpl.
  - rewrite He. reflexivity.
  - rewrite Hi. cbn [bind]. apply IH.
Qed.

(** X24.  An exception in one minimisation ends the multi-start driver
    with that exception, whatever the earlier trials had found: nothing
    is caught, and the later starts are not tried. *)
Theorem a_failing_trial_aborts_the_search :
  forall l atlas sample p01 p11 pre init post rs e,
    K atlas <> 0%nat ->
    starts dirichlet_rvs (K atlas) = pre ++ init :: post ->
    Forall2 (fun i r =>
               trial minimize (objective logpmf ln l atlas sample p01 p11)
                     (K atlas) i = Ok r) pre rs ->
    trial minimize (objective logpmf ln l atlas sample p01 p11) (K atlas) init
    = Err e ->
    fit_ll logpmf ln dirichlet_rvs minimize l atlas sample p01 p11 = Err e /\
    script_fit_ll logpmf ln dirichlet_rvs minimize l atlas sample p01 p11 true
    = Err e.
Proof.
  intros l atlas sample p01 p11 pre init post rs e HK Hst Hpre He.
  rewrite script_fit_ll_unfold.
  assert (E : fit_ll logpmf ln dirichlet_rvs minimize l atlas sample p01 p11
              = Err e); [|split; exact E].
  rewrite fit_ll_unfold. unfold uniform_vector.
  destruct (Nat.eqb_spec (K atlas) 0) as [E0|_]; [contradiction|].
  cbn [bind]. unfold starts in Hst. rewrite Hst.
  unfold trial in Hpre, He.
  rewrite (trials_abort _ _ _ _ _ _ _ _ _ Hpre He). reflexivity.
Qed.

End Returning.

Lemma returns_iff_some_trial_improves_witness :
  returns (fit_ll Example.logpmf Example.ln Example.dirichlet_rvs
                  Example.minimize Perfect Example.dark_atlas
                  Example.lit_sample zero one)
  <-> Exists improves
             (repeat {| opt_x := [one]; opt_fun := PInf |} 10).
Proof.
  apply returns_iff_some_trial_improves.
  - discriminate.
  - vm_compute starts. repeat constructor.
Defined.

Lemma a_failing_trial_aborts_the_search_witness :
  fit_ll Example.logpmf Example.ln Example.dirichlet_rvs Example.minimize
         WithErrors Example.dark_atlas
         {| name := "s"; x_hat := [Fin 2]; m := [of_nat 2]; t := [of_nat 1] |}
         (Fin (5 # 100)) (Fin (95 # 100)) = Err ValueError /\
  script_fit_ll Example.logpmf Example.ln Example.dirichlet_rvs
                Example.minimize WithErrors Example.dark_atlas
                {| name := "s"; x_hat := [Fin 2]; m := [of_nat 2];
                   t := [of_nat 1] |}
                (Fin (5 # 100)) (Fin (95 # 100)) true = Err ValueError.
Proof.
  apply (a_failing_trial_aborts_the_search
           Example.logpmf Example.ln Example.dirichlet_rvs Example.minimize
           WithErrors Example.dark_atlas _ _ _ [] [one] (repeat [one] 9) []).
  - discriminate.
  - reflexivity.
  - constructor.
  - reflexivity.
Defined.

(** ** No sites *)

(** X25.  Nothing rejects an empty set of sites: on an atlas without
    rows and a sample without counts, both likelihoods return zero at
    every mixture vector of [K] entries, and raise [ValueError] at a
    vector of any other length. *)
Theorem no_sites_give_zero_likelihood :
  forall logpmf ln atlas sigma sample p01 p11,
    A atlas = [] -> m sample = [] -> t sample = [] ->
    (length sigma = K atlas ->
     log_likelihood_sequencing_perfect logpmf atlas sigma sample p01 p11
     = Ok zero /\
     log_likelihood_sequencing_with_errors logpmf ln atlas sigma sample p01 p11
     = Ok zero) /\
    (length sigma <> K atlas ->
     log_likelihood_sequencing_perfect logpmf atlas sigma sample p01 p11
     = Err ValueError /\
     log_likelihood_sequencing_with_errors logpmf ln atlas sigma sample p01 p11
     = Err ValueError).
Proof.
  intros logpmf ln atlas sigma sample p01 p11 HA Hm Ht.
  unfold log_likelihood_sequencing_perfect,
         log_likelihood_sequencing_with_errors, clipped_x, reshape_col,
         get_x, np_matmul.
  rewrite HA, Hm, Ht. split; intros H.
  - rewrite H, Nat.eqb_refl. cbn [bind forallb np_ravel np_clip map].
    destruct (truthy p11); split; reflexivity.
  - apply Nat.eqb_neq in H. rewrite H. split; reflexivity.
Qed.

Lemma no_sites_give_zero_likelihood_witness :
  (length [Fin (1 # 2); Fin (1 # 2)] = 2%nat ->
   log_likelihood_sequencing_perfect
     Example.logpmf
     {| cpg_ids := []; K := 2; v := [("a"%string, []); ("b"%string, [])];
        A := [] |}
     [Fin (1 # 2); Fin (1 # 2)]
     {| name := "s"; x_hat := []; m := []; t := [] |} zero one = Ok zero /\
   log_likelihood_sequencing_with_errors
     Example.logpmf Example.ln
     {| cpg_ids := []; K := 2; v := [("a"%string, []); ("b"%string, [])];
        A := [] |}
     [Fin (1 # 2); Fin (1 # 2)]
     {| name := "s"; x_hat := []; m := []; t := [] |} zero one = Ok zero) /\
  (length [Fin (1 # 2); Fin (1 # 2)] <> 2%nat ->
   log_likelihood_sequencing_perfect
     Example.logpmf
     {| cpg_ids := []; K := 2; v := [("a"%string, []); ("b"%string, [])];
        A := [] |}
     [Fin (1 # 2); Fin (1 # 2)]
     {| name := "s"; x_hat := []; m := []; t := [] |} zero one
   = Err ValueError /\
   log_likelihood_sequencing_with_errors
     Example.logpmf Example.ln
     {| cpg_ids := []; K := 2; v := [("a"%string, []); ("b"%string, [])];
        A := [] |}
     [Fin (1 # 2); Fin (1 # 2)]
     {| name := "s"; x_hat := []; m := []; t := [] |} zero one
   = Err ValueError).
Proof.
  apply (no_sites_give_zero_likelihood
           Example.logpmf Example.ln
           {| cpg_ids := []; K := 2; v := [("a"%string, []); ("b"%string, [])];
              A := [] |}
           [Fin (1 # 2); Fin (1 # 2)]
           {| name := "s"; x_hat := []; m := []; t := [] |} zero one);
    reflexivity.
Defined.
